(** * Document-structure extraction heuristics of the water-compliance scripts

    A shallow embedding of the three extraction routines

    - [analyze_excel_template]  (scripts/analyze_dwqar_excel_template.py),
    - [extract_rules]           (scripts/extract_compliance_rules.py),
    - [extract_priorities]      (scripts/analyze_compliance_strategy.py),

    together with the properties their specification states about them.

    Conventions.  A Python [str] is a [string]; a character is a code point
    below 256, so [length] is Python's [len].  Printing ([print]) and the
    JSON dump have no influence on the computed records and are left out.
    A spreadsheet is the interface the scripts use of it: [max_row],
    [max_column] and the value of the cell at a 1-based (row, column). *)

From Stdlib Require Import String Ascii List Arith Lia Permutation.
From stdpp Require Import base decidable option list gmap strings pretty.

Local Open Scope string_scope.
Local Open Scope list_scope.
Local Open Scope nat_scope.
Local Open Scope stdpp_scope.

(** ** Python's string methods *)

Module PyStr.

(** [c.isspace()] for a code point below 256: TAB..CR, FS..US, space, NEL
    and the no-break space. *)
Definition isspace (c : ascii) : bool :=
  let n := nat_of_ascii c in
  ((9 <=? n) && (n <=? 13)) || ((28 <=? n) && (n <=? 32))
  || (n =? 133) || (n =? 160).

(** [c.lower()] for a code point below 256: A..Z and the accented capitals
    0xC0..0xDE (the multiplication sign 0xD7 apart) move up by 32. *)
Definition lower_char (c : ascii) : ascii :=
  let n := nat_of_ascii c in
  if ((65 <=? n) && (n <=? 90))
     || ((192 <=? n) && (n <=? 222) && negb (n =? 215))
  then ascii_of_nat (n + 32) else c.

(** [s.lower()] *)
Fixpoint lower (s : string) : string :=
  match s with
  | EmptyString => EmptyString
  | String c s' => String (lower_char c) (lower s')
  end.

(** [s.lstrip()] *)
Fixpoint lstrip (s : string) : string :=
  match s with
  | EmptyString => EmptyString
  | String c s' => if isspace c then lstrip s' else s
  end.

(** [s.rstrip()] *)
Fixpoint rstrip (s : string) : string :=
  match s with
  | EmptyString => EmptyString
  | String c s' =>
      match rstrip s' with
      | EmptyString => if isspace c then EmptyString else String c EmptyString
      | r => String c r
      end
  end.

(** [s.strip()] *)
Definition strip (s : string) : string := rstrip (lstrip s).

(** Truth value of a [str]: non-empty. *)
Definition truthy (s : string) : bool :=
  match s with EmptyString => false | String _ _ => true end.

(** [s.startswith(p)] *)
Fixpoint startswith (s p : string) : bool :=
  match p with
  | EmptyString => true
  | String a p' =>
      match s with
      | EmptyString => false
      | String b s' => Ascii.eqb a b && startswith s' p'
      end
  end.

(** [k in s] for strings: [k] occurs in [s] as a contiguous substring. *)
Fixpoint contains (s k : string) : bool :=
  startswith s k ||
  match s with
  | EmptyString => false
  | String _ s' => contains s' k
  end.

(** [any(k in s for k in ks)] *)
Definition any_in (ks : list string) (s : string) : bool :=
  existsb (contains s) ks.

(** [s.split(sep)] for a one-character separator: never empty, one more
    piece than there are separators. *)
Fixpoint split (sep : ascii) (s : string) : list string :=
  match s with
  | EmptyString => [EmptyString]
  | String c s' =>
      if Ascii.eqb c sep then EmptyString :: split sep s'
      else match split sep s' with
           | [] => [String c EmptyString]
           | p :: ps => String c p :: ps
           end
  end.

(** [' '.join(l)] *)
Fixpoint join (sep : string) (l : list string) : string :=
  match l with
  | [] => EmptyString
  | [x] => x
  | x :: l' => x +:+ sep +:+ join sep l'
  end.

(** Number of occurrences of the character [c] in [s]. *)
Fixpoint count_char (c : ascii) (s : string) : nat :=
  match s with
  | EmptyString => 0
  | String a s' => (if Ascii.eqb a c then 1 else 0) + count_char c s'
  end.

End PyStr.

(** ** Spreadsheet cells

    The value openpyxl gives for a cell: [None] for an empty cell, a text,
    a whole number or a boolean.  (Floating-point and date cells are not
    modelled.) *)

Inductive cell_value : Type :=
  | CNone
  | CStr (s : string)
  | CInt (n : Z)
  | CBool (b : bool).

(** [str(v)] *)
Definition py_str (v : cell_value) : string :=
  match v with
  | CNone => "None"
  | CStr s => s
  | CInt n => pretty n
  | CBool true => "True"
  | CBool false => "False"
  end.

(** Truth value of [v], as [if v] and [v and ...] test it. *)
Definition py_truthy (v : cell_value) : bool :=
  match v with
  | CNone => false
  | CStr s => PyStr.truthy s
  | CInt n => negb (n =? 0)%Z
  | CBool b => b
  end.

(** What the scripts use of an openpyxl worksheet. [cell sh r c] is
    [sh.cell(row=r, column=c).value]; rows and columns count from 1. *)
Record worksheet : Type := {
  max_row : nat;
  max_column : nat;
  cell : nat -> nat -> cell_value
}.

(** The worksheet holding a grid given row by row (used for the concrete
    scenarios); an empty worksheet has one row and one column. *)
Definition sheet_of_rows (rows : list (list cell_value)) : worksheet := {|
  max_row := Nat.max 1 (length rows);
  max_column := Nat.max 1 (list_max (map (@length cell_value) rows));
  cell := fun r c =>
    match r, c with
    | S r', S c' => nth c' (nth r' rows []) CNone
    | _, _ => CNone
    end
|}.

Definition text_rows (rows : list (list string)) : worksheet :=
  sheet_of_rows (map (map CStr) rows).

(** ** Sheet-Header Locator: [analyze_excel_template], per sheet *)

Module HeaderLocator.

Definition header_keywords : list string :=
  ["supply"; "name"; "code"; "date"; "water"; "compliance"].

(** The texts of row [row_idx], columns [1..max_col]. *)
Definition row_values (sh : worksheet) (row_idx : nat) : list string :=
  map (fun col_idx =>
         match cell sh row_idx col_idx with
         | CNone => ""
         | v => py_str v
         end)
      (seq 1 (max_column sh)).

(** [[v for v in row_values if v.strip()]] *)
Definition non_empty (row_values : list string) : list string :=
  List.filter (fun v => PyStr.truthy (PyStr.strip v)) row_values.

(** The two variables the scanning loop assigns. *)
Record scan_state : Type := {
  st_headers : list string;
  st_data_start_row : option nat
}.

Definition scan_init : scan_state :=
  {| st_headers := []; st_data_start_row := None |}.

(** [not data_start_row]: [None] and [0] are false values. *)
Definition not_set (d : option nat) : bool :=
  match d with
  | None => true
  | Some n => n =? 0
  end.

(** One iteration of the loop over [row_idx]. *)
Definition scan_row (sh : worksheet) (st : scan_state) (row_idx : nat)
  : scan_state :=
  let rv := row_values sh row_idx in
  let ne := non_empty rv in
  if 3 <? length ne then
    if not_set (st_data_start_row st)
       && PyStr.any_in header_keywords (PyStr.lower (PyStr.join " " ne))
    then {| st_headers := rv; st_data_start_row := Some (row_idx + 1) |}
    else st
  else st.

(** [range(1, min(21, max_row + 1))] *)
Definition scan_window (sh : worksheet) : list nat :=
  seq 1 (Nat.min 21 (max_row sh + 1) - 1).

Definition scan_headers (sh : worksheet) : scan_state :=
  fold_left (scan_row sh) (scan_window sh) scan_init.

Record header_detail : Type := {
  column_index : nat;
  header_name : string;
  database_mapping : string;
  required : string;
  data_type : string
}.

(** [[h.strip() for h in headers if h.strip()]] *)
Definition clean_headers (headers : list string) : list string :=
  map PyStr.strip (List.filter (fun h => PyStr.truthy (PyStr.strip h)) headers).

(** The entry built for the header at 1-based position [idx]. *)
Definition detail_of (idx : nat) (header : string) : header_detail := {|
  column_index := idx;
  header_name := header;
  database_mapping := "TO_BE_MAPPED_" +:+ pretty idx;
  required := "UNKNOWN";
  data_type := "UNKNOWN"
|}.

(** The loop over [enumerate(clean_headers[:30], 1)]. *)
Definition header_details (headers : list string) : list header_detail :=
  imap (fun i header => detail_of (i + 1) header)
       (take 30 (clean_headers headers)).

Record sheet_analysis : Type := {
  sheet_name : string;
  dimensions : nat * nat;          (* rows, columns *)
  header_row : option nat;
  data_start_row : option nat;
  headers : list header_detail;
  notes : list string
}.

(** Truth value of a list: non-empty. *)
Definition list_truthy {A} (l : list A) : bool :=
  match l with [] => false | _ :: _ => true end.

Definition sheet_notes (name : string) : list string :=
  let n := PyStr.lower name in
  (if PyStr.contains n "supply"
   then ["Contains water supply information"] else [])
  ++ (if PyStr.contains n "test" || PyStr.contains n "quality"
      then ["Contains water quality test data"] else [])
  ++ (if PyStr.contains n "compliance"
      then ["Contains compliance reporting data"] else []).

(** The body of the loop over the sheets: the record stored for one sheet. *)
Definition analyze_sheet (name : string) (sh : worksheet) : sheet_analysis :=
  let st := scan_headers sh in
  let hs := st_headers st in
  {| sheet_name := name;
     dimensions := (max_row sh, max_column sh);
     header_row := if list_truthy hs then Some 1 else None;
     data_start_row := st_data_start_row st;
     headers := if list_truthy hs then header_details hs else [];
     notes := sheet_notes name |}.

(** The [sheets] list of the analysis, one record per sheet of the workbook. *)
Definition analyze_excel_template (wb : list (string * worksheet))
  : list sheet_analysis :=
  map (fun '(name, sh) => analyze_sheet name sh) wb.

(** The end-to-end scenario of the specification. *)
Definition scenario : worksheet :=
  text_rows [["a"; "b"; "c"];
             ["Water"; "Supply"; "Name"; "Code"; "Date"];
             ["1"; "X"; "Y"; "2020-01-01"]].

End HeaderLocator.

(** The distinct elements of [l], each at the place of its first
    occurrence. *)
Fixpoint first_occurrences (l : list string) : list string :=
  match l with
  | [] => []
  | x :: l' => x :: filter (fun y => y <> x) (first_occurrences l')
  end.

(** ** Rule-Identifier Extractor: [extract_rules] *)

Module RuleExtractor.

Inductive category : Type :=
  | BACTERIOLOGICAL
  | CHEMICAL
  | PROTOZOA
  | RADIOLOGICAL
  | MONITORING
  | VERIFICATION
  | OPERATIONAL
  | WATER_QUALITY.

Record rule : Type := {
  ruleId : string;
  rule_category : category;
  parameter : option string;
  description : string;
  isActive : bool;
  applicability : string;
  effectiveDate : string
}.

(** The parameter parsed out of a rule id such as [T1.8-ecol]. *)
Definition parse_parameter (rule_id : string) : option string :=
  if PyStr.contains rule_id "-" then
    match PyStr.split "-" rule_id with
    | [_; p] => Some (PyStr.lower p)
    | _ => None
    end
  else None.

(** The [if]/[elif] chain on the prefix of the rule id. *)
Definition categorize (rule_id : string) : category :=
  if PyStr.startswith rule_id "T1" then BACTERIOLOGICAL
  else if PyStr.startswith rule_id "T2" then CHEMICAL
  else if PyStr.startswith rule_id "T3" then PROTOZOA
  else if PyStr.startswith rule_id "T4" then RADIOLOGICAL
  else if PyStr.startswith rule_id "M" then MONITORING
  else if PyStr.startswith rule_id "V" then VERIFICATION
  else if PyStr.startswith rule_id "O" then OPERATIONAL
  else WATER_QUALITY.

Definition build_rule (rule_id : string) : rule := {|
  ruleId := rule_id;
  rule_category := categorize rule_id;
  parameter := parse_parameter rule_id;
  description := "Compliance rule " +:+ rule_id;
  isActive := true;
  applicability := "All supply sizes";
  effectiveDate := "2024-01-01T00:00:00.000Z"
|}.

(** The list [rules] and the set [rule_ids_seen] the loop updates. *)
Record extract_state : Type := {
  rules : list rule;
  rule_ids_seen : gset string
}.

Definition extract_init : extract_state :=
  {| rules := []; rule_ids_seen := ∅ |}.

(** The guard [cell_value and str(cell_value).strip()]. *)
Definition has_rule_id (cell_value : cell_value) : bool :=
  py_truthy cell_value && PyStr.truthy (PyStr.strip (py_str cell_value)).

(** One iteration of the loop, on the value of the cell in column A. *)
Definition extract_cell (st : extract_state) (cell_value : cell_value)
  : extract_state :=
  if has_rule_id cell_value then
    let rule_id := PyStr.strip (py_str cell_value) in
    if decide (rule_id ∈ rule_ids_seen st) then st
    else {| rules := rules st ++ [build_rule rule_id];
            rule_ids_seen := {[rule_id]} ∪ rule_ids_seen st |}
  else st.

(** The loop over a sequence of raw cell values. *)
Definition extract_cells (cells : list cell_value) : list rule :=
  rules (fold_left extract_cell cells extract_init).

(** Column A of the sheet, rows [1..max_row]. *)
Definition column_a (sh : worksheet) : list cell_value :=
  map (fun row_idx => cell sh row_idx 1) (seq 1 (max_row sh)).

Definition extract_rules (sh : worksheet) : list rule :=
  extract_cells (column_a sh).

End RuleExtractor.

(** ** Keyword-Bucket Scanner: [extract_priorities] *)

Module KeywordScanner.

(** The dictionary [priorities], from bucket name to the lines collected. *)
Definition priorities_init : gmap string (list string) :=
  <["high_risk_areas" := []]>
  (<["enforcement_focus" := []]>
  (<["supply_categories" := []]>
  (<["key_metrics" := []]>
  (<["risk_factors" := []]> ∅)))).

(** [priorities[key].append(x)] *)
Definition append_to (key x : string) (priorities : gmap string (list string))
  : gmap string (list string) :=
  alter (fun l => l ++ [x]) key priorities.

(** The double test guarding an [append]: a keyword occurs in the
    lower-cased line and the stripped line is longer than [lo] and shorter
    than [hi]. *)
Definition bucket_match (keywords : list string) (lo hi : nat) (line : string)
  : bool :=
  if PyStr.any_in keywords (PyStr.lower line) then
    (lo <? String.length (PyStr.strip line))
    && (String.length (PyStr.strip line) <? hi)
  else false.

Definition high_risk_match : string -> bool :=
  bucket_match ["high risk"; "critical"; "priority"] 20 200.
Definition supply_category_match : string -> bool :=
  bucket_match ["category"; "tier"; "supplier"] 15 150.
Definition risk_factor_match : string -> bool :=
  bucket_match ["risk factor"; "risk level"] 15 150.

(** One iteration of the loop over the lines. *)
Definition scan_line (priorities : gmap string (list string)) (line : string)
  : gmap string (list string) :=
  let p1 := if high_risk_match line
            then append_to "high_risk_areas" (PyStr.strip line) priorities
            else priorities in
  let p2 := if supply_category_match line
            then append_to "supply_categories" (PyStr.strip line) p1
            else p1 in
  if risk_factor_match line
  then append_to "risk_factors" (PyStr.strip line) p2
  else p2.

(** The dictionary after the loop over [lines], before deduplication. *)
Definition collect (lines : list string) : gmap string (list string) :=
  fold_left scan_line lines priorities_init.

(** The lines collected under [key]. *)
Definition collected (lines : list string) (key : string) : list string :=
  default [] (collect lines !! key).

Section Scanner.

(** [set_order l] stands for [list(set(l))]: the elements of [l] in the
    order in which the interpreter iterates over the set built from [l].
    That order is fixed by the hash values of the strings, which CPython
    seeds anew for every process, and by the insertion history. *)
Variable set_order : list string -> list string.

(** [priorities[key] = list(set(priorities[key]))[:10]] for every key. *)
Definition dedup_cap (priorities : gmap string (list string))
  : gmap string (list string) :=
  (fun l => take 10 (set_order l)) <$> priorities.

Definition extract_priorities (text : string) : gmap string (list string) :=
  dedup_cap (collect (PyStr.split "010" text)).

End Scanner.

(** What Python guarantees of [list(set(l))]: every element of [l], once. *)
Definition set_listing (set_order : list string -> list string) : Prop :=
  forall l, NoDup (set_order l) /\ forall x, x ∈ set_order l <-> x ∈ l.

(** Two listings: first occurrences in insertion order, and the reverse. *)
Definition insertion_order (l : list string) : list string :=
  first_occurrences l.
Definition reverse_order (l : list string) : list string :=
  reverse (first_occurrences l).

End KeywordScanner.

(** ** Rule extraction: the category breakdown of [extract_rules] *)

Module RuleSummary.
Import RuleExtractor.

(** The category as the string the script stores. *)
Definition category_name (c : category) : string :=
  match c with
  | BACTERIOLOGICAL => "BACTERIOLOGICAL"
  | CHEMICAL => "CHEMICAL"
  | PROTOZOA => "PROTOZOA"
  | RADIOLOGICAL => "RADIOLOGICAL"
  | MONITORING => "MONITORING"
  | VERIFICATION => "VERIFICATION"
  | OPERATIONAL => "OPERATIONAL"
  | WATER_QUALITY => "WATER_QUALITY"
  end.

(** [category_counts[cat] = category_counts.get(cat, 0) + 1] *)
Definition count_rule (category_counts : gmap string nat) (r : rule)
  : gmap string nat :=
  let cat := category_name (rule_category r) in
  <[cat := default 0 (category_counts !! cat) + 1]> category_counts.

(** The loop of the category breakdown. *)
Definition category_counts (rules : list rule) : gmap string nat :=
  fold_left count_rule rules ∅.

End RuleSummary.

(** ** DWSP elements: [find_dwsp_elements] *)

Module DwspElements.

Record element : Type := {
  title : string;
  keywords : list string;
  found : bool;
  sections : list string
}.

Definition new_element (title : string) (keywords : list string) : element :=
  {| title := title; keywords := keywords; found := false; sections := [] |}.

(** The dictionary [elements], in insertion order. *)
Definition elements_init : list (string * element) :=
  [("element_1", new_element "Description of the drinking water supply"
                   ["description"; "supply details"; "water supply"]);
   ("element_2", new_element "Hazardous events and hazards"
                   ["hazard"; "hazardous event"; "risk"]);
   ("element_3", new_element "Preventive measures for hazards"
                   ["preventive"; "control measure"; "barrier"]);
   ("element_4", new_element "Operational monitoring"
                   ["operational monitor"; "daily check"; "routine"]);
   ("element_5", new_element "Verification monitoring"
                   ["verification"; "compliance check"; "testing"]);
   ("element_6", new_element "Corrective action"
                   ["corrective action"; "response"; "non-compliance"]);
   ("element_7", new_element "Incident and emergency response"
                   ["incident"; "emergency"; "contingency"]);
   ("element_8", new_element "Management of the drinking water supply"
                   ["management"; "responsibility"; "roles"]);
   ("element_9", new_element "Documentation and communication"
                   ["documentation"; "communication"; "record"]);
   ("element_10", new_element "Improvement planning"
                    ["improvement"; "upgrade"; "future"]);
   ("element_11", new_element "Supply details"
                    ["population"; "source"; "treatment process"]);
   ("element_12", new_element "Review and approval"
                    ["review"; "approval"; "sign-off"])].

(** The body of the innermost loop, for one keyword of the element. *)
Definition scan_keyword (line : string) (elem_data : element) (keyword : string)
  : element :=
  if PyStr.contains (PyStr.lower line) keyword
     && (0 <? String.length (PyStr.strip line))
  then
    {| title := title elem_data;
       keywords := keywords elem_data;
       found := true;
       sections :=
         if decide (PyStr.strip line ∈ sections elem_data)
         then sections elem_data
         else sections elem_data ++ [PyStr.strip line] |}
  else elem_data.

(** The loop over the keywords of one element. *)
Definition scan_element (line : string) (elem_data : element) : element :=
  fold_left (scan_keyword line) (keywords elem_data) elem_data.

(** The loop over the elements, for one line. *)
Definition scan_elements (elements : list (string * element)) (line : string)
  : list (string * element) :=
  map (fun '(elem_key, elem_data) => (elem_key, scan_element line elem_data))
      elements.

(** The loop over the lines, from a given dictionary. *)
Definition scan_lines (elements : list (string * element))
    (lines : list string) : list (string * element) :=
  fold_left scan_elements lines elements.

Definition find_dwsp_elements (text : string) : list (string * element) :=
  scan_lines elements_init (PyStr.split "010" text).

End DwspElements.

(** * Vocabulary of the specification *)

Import PyStr HeaderLocator RuleExtractor KeywordScanner.

(** ** Sheet-Header Locator *)

(** Row [r] lies in the scan window: one of the first 20 rows of the sheet. *)
Definition in_window (sh : worksheet) (r : nat) : Prop :=
  1 <= r /\ r <= 20 /\ r <= max_row sh.

(** Row [r] is a header candidate: more than 3 non-empty cells. *)
Definition candidate (sh : worksheet) (r : nat) : Prop :=
  3 < length (non_empty (row_values sh r)).

(** The joined, lower-cased non-empty cells of row [r] contain a keyword. *)
Definition keyword_match (sh : worksheet) (r : nat) : Prop :=
  exists k, In k header_keywords /\
    PyStr.contains (PyStr.lower (PyStr.join " " (non_empty (row_values sh r)))) k
    = true.

(** The test of [scan_row] on a row, while no header has been found. *)
Definition qualifies (sh : worksheet) (r : nat) : bool :=
  (3 <? length (non_empty (row_values sh r)))
  && PyStr.any_in header_keywords
       (PyStr.lower (PyStr.join " " (non_empty (row_values sh r)))).

(** The outcome of the loop over the rows [a .. a+n-1]. *)
Inductive scan_outcome (sh : worksheet) (a n : nat) : scan_state -> Prop :=
  | scan_none :
      (forall r, a <= r < a + n -> qualifies sh r = false) ->
      scan_outcome sh a n scan_init
  | scan_found r :
      a <= r < a + n ->
      qualifies sh r = true ->
      (forall r', a <= r' < r -> qualifies sh r' = false) ->
      scan_outcome sh a n
        {| st_headers := row_values sh r; st_data_start_row := Some (r + 1) |}.

(** The row accepted as the header, read off the result of the scan. *)
Definition accepted (sh : worksheet) (r : nat) : Prop :=
  st_data_start_row (scan_headers sh) = Some (r + 1).

(** The regression sheet of the specification: five generic cells, then a
    row of four cells with a keyword. *)
Definition regression_sheet : worksheet :=
  text_rows [["alpha"; "beta"; "gamma"; "delta"; "epsilon"];
             ["Water Supply Name"; "x"; "y"; "z"]].

(** A sheet whose only row has 31 header cells. *)
Definition wide_sheet : worksheet := text_rows [replicate 31 "Name"].

(** ** Rule-Identifier Extractor *)

(** The classification table of the specification, in its order. *)
Definition prefix_table : list (string * category) :=
  [("T1", BACTERIOLOGICAL); ("T2", CHEMICAL); ("T3", PROTOZOA);
   ("T4", RADIOLOGICAL); ("M", MONITORING); ("V", VERIFICATION);
   ("O", OPERATIONAL)].

(** First match wins; [WATER_QUALITY] when no prefix matches. *)
Fixpoint first_match (table : list (string * category)) (rule_id : string)
  : category :=
  match table with
  | [] => WATER_QUALITY
  | (p, c) :: table' =>
      if startswith rule_id p then c else first_match table' rule_id
  end.

(** The identifier a cell contributes, if any: the stripped text of a cell
    that passes the guard of the loop.  Empty cells, empty and blank texts
    do not pass it, and neither do the false values [0] and [False]. *)
Definition cell_identifier (v : cell_value) : option string :=
  if has_rule_id v then Some (strip (py_str v)) else None.

Definition identifiers (cells : list cell_value) : list string :=
  omap cell_identifier cells.

(** A cell that is empty or holds only whitespace. *)
Definition blank_cell (v : cell_value) : Prop :=
  v = CNone \/ exists s, v = CStr s /\ strip s = "".

(** ** Keyword-Bucket Scanner *)

(** The five keys of the dictionary. *)
Definition bucket_keys : gset string :=
  {[ "high_risk_areas"; "enforcement_focus"; "supply_categories";
     "key_metrics"; "risk_factors" ]}.

(** The test that guards the [append] to the bucket [key]; no line is ever
    appended to the other two buckets. *)
Definition bucket_test (key : string) : string -> bool :=
  if decide (key = "high_risk_areas") then high_risk_match
  else if decide (key = "supply_categories") then supply_category_match
  else if decide (key = "risk_factors") then risk_factor_match
  else fun _ => false.

(** A line of 21 characters with the keyword "critical", and its first 20. *)
Definition line21 : string := "critical pump faults!".

Definition line20 : string := "critical pump faults".


Definition nl : string := String "010" "".

(** [n] distinct lines that match [high_risk_areas], and the text made of
    them. *)
Definition numbered_lines (n : nat) : list string :=
  map (fun i => "critical issue number " +:+ pretty i) (seq 1 n).

Definition numbered_text (n : nat) : string := join nl (numbered_lines n).

(** The stripped lines of [text] that match the bucket [key]. *)
Definition matching (text key : string) : list string :=
  map strip (List.filter (bucket_test key) (split "010" text)).

(** Number of distinct strings in [l]. *)
Definition distinct (l : list string) : nat :=
  size (list_to_set (C:=gset string) l).

(** ** Keywords and whitespace *)

(** The first character of [k] is not whitespace. *)
Definition first_nonspace (k : string) : bool :=
  match k with
  | EmptyString => false
  | String c _ => negb (isspace c)
  end.

(** The last character of [k] is not whitespace. *)
Fixpoint last_nonspace (k : string) : bool :=
  match k with
  | EmptyString => false
  | String c EmptyString => negb (isspace c)
  | String _ k' => last_nonspace k'
  end.

(** A keyword that begins and ends with a character that is not
    whitespace, as all the keywords of the scripts do. *)
Definition solid (k : string) : bool := first_nonspace k && last_nonspace k.

(** ** Rule extraction: categories *)

Definition all_categories : list category :=
  [BACTERIOLOGICAL; CHEMICAL; PROTOZOA; RADIOLOGICAL; MONITORING;
   VERIFICATION; OPERATIONAL; WATER_QUALITY].

(** The rules of [rules] whose category is stored as [k]. *)
Definition rules_in_category (k : string) (rules : list rule) : list rule :=
  filter (fun r => RuleSummary.category_name (rule_category r) = k) rules.

(** ** DWSP elements *)

(** The guard of the innermost loop, over all the keywords of an element:
    some keyword occurs in the lower-cased line and the stripped line is
    not empty. *)
Definition element_match (keywords : list string) (line : string) : bool :=
  any_in keywords (lower line) && (0 <? String.length (strip line)).

(** What a matching line does to an element. *)
Definition mark_found (line : string) (e : DwspElements.element)
  : DwspElements.element :=
  {| DwspElements.title := DwspElements.title e;
     DwspElements.keywords := DwspElements.keywords e;
     DwspElements.found := true;
     DwspElements.sections :=
       if decide (strip line ∈ DwspElements.sections e)
       then DwspElements.sections e
       else DwspElements.sections e ++ [strip line] |}.

(** One element through all the lines. *)
Definition scan_element_lines (lines : list string) (e : DwspElements.element)
  : DwspElements.element :=
  fold_left (fun e line => DwspElements.scan_element line e) lines e.

(** The stripped lines that match the keywords, each once, in the order of
    first appearance. *)
Definition matched_sections (keywords : list string) (lines : list string)
  : list string :=
  first_occurrences (map strip (List.filter (element_match keywords) lines)).

(** The element [e] after the lines, in closed form. *)
Definition element_after (lines : list string) (e : DwspElements.element)
  : DwspElements.element :=
  {| DwspElements.title := DwspElements.title e;
     DwspElements.keywords := DwspElements.keywords e;
     DwspElements.found :=
       DwspElements.found e
       || existsb (element_match (DwspElements.keywords e)) lines;
     DwspElements.sections :=
       DwspElements.sections e
       ++ filter (fun x => x ∉ DwspElements.sections e)
            (matched_sections (DwspElements.keywords e) lines) |}.

(** The element of the result for the initial element [e0]. *)
Definition element_result (lines : list string) (e0 : DwspElements.element)
  : DwspElements.element :=
  {| DwspElements.title := DwspElements.title e0;
     DwspElements.keywords := DwspElements.keywords e0;
     DwspElements.found :=
       existsb (element_match (DwspElements.keywords e0)) lines;
     DwspElements.sections :=
       matched_sections (DwspElements.keywords e0) lines |}.

(** * Properties *)

(** Case analysis on the condition of the first [if] of the goal. *)
Ltac case_if :=
  match goal with
  | |- context [if ?b then _ else _] => destruct b eqn:?
  end.

(** ** Sheet-Header Locator *)

Section HeaderLocatorFacts.

Lemma qualifies_spec sh r :
  qualifies sh r = true <-> candidate sh r /\ keyword_match sh r.
Proof.
  unfold qualifies, candidate, keyword_match, PyStr.any_in.
  rewrite andb_true_iff, Nat.ltb_lt, existsb_exists. tauto.
Qed.

Lemma in_window_seq sh r : In r (scan_window sh) <-> in_window sh r.
Proof. unfold scan_window, in_window. rewrite in_seq. lia. Qed.

Lemma scan_row_fresh sh r :
  scan_row sh scan_init r =
  if qualifies sh r
  then {| st_headers := row_values sh r; st_data_start_row := Some (r + 1) |}
  else scan_init.
Proof.
  unfold scan_row, qualifies. cbn [st_data_start_row scan_init not_set].
  case_if; [|reflexivity]. case_if; reflexivity.
Qed.

(** Once [data_start_row] holds a row number, an iteration changes nothing. *)
Lemma scan_row_found sh st r :
  not_set (st_data_start_row st) = false -> scan_row sh st r = st.
Proof.
  intros H. unfold scan_row. rewrite H. case_if; reflexivity.
Qed.

Lemma scan_rows_found sh st l :
  not_set (st_data_start_row st) = false -> fold_left (scan_row sh) l st = st.
Proof.
  intros H. induction l as [|r l IH]; simpl; [reflexivity|].
  rewrite scan_row_found by assumption. exact IH.
Qed.

Lemma scan_seq_outcome sh n : forall a,
  scan_outcome sh a n (fold_left (scan_row sh) (seq a n) scan_init).
Proof.
  induction n as [|n IH]; intros a; simpl.
  - apply scan_none. intros r Hr. lia.
  - rewrite scan_row_fresh. destruct (qualifies sh a) eqn:Hq.
    + rewrite scan_rows_found.
      * apply scan_found; [lia | assumption | intros r' Hr'; lia].
      * simpl. apply Nat.eqb_neq. lia.
    + destruct (IH (S a)) as [Hnone | r Hr Hqr Hfirst].
      * apply scan_none. intros r Hr.
        destruct (Nat.eq_dec r a) as [->|Hne]; [assumption|].
        apply Hnone. lia.
      * apply scan_found; [lia | assumption |].
        intros r' Hr'.
        destruct (Nat.eq_dec r' a) as [->|Hne]; [assumption|].
        apply Hfirst. lia.
Qed.

Lemma scan_headers_outcome sh :
  scan_outcome sh 1 (Nat.min 21 (max_row sh + 1) - 1) (scan_headers sh).
Proof. apply scan_seq_outcome. Qed.

Lemma window_bounds sh r :
  1 <= r < 1 + (Nat.min 21 (max_row sh + 1) - 1) <-> in_window sh r.
Proof. unfold in_window. lia. Qed.

Lemma accepted_first sh r :
  accepted sh r <->
  in_window sh r /\ qualifies sh r = true /\
  forall r', in_window sh r' -> r' < r -> qualifies sh r' = false.
Proof.
  unfold accepted.
  destruct (scan_headers_outcome sh) as [Hnone | r0 Hr0 Hq0 Hfirst]; simpl.
  - split; [discriminate|]. intros (Hw & Hq & _).
    rewrite Hnone in Hq; [discriminate|]. apply window_bounds, Hw.
  - split.
    + intros [= Heq]. assert (r0 = r) as -> by lia.
      split; [apply window_bounds, Hr0|]. split; [assumption|].
      intros r' Hw' Hlt. apply Hfirst. unfold in_window in Hw'. lia.
    + intros (Hw & Hq & Hmin). f_equal.
      destruct (Nat.lt_trichotomy r r0) as [Hlt | [-> | Hgt]]; [|reflexivity|].
      * rewrite Hfirst in Hq; [discriminate|]. unfold in_window in Hw. lia.
      * rewrite Hmin in Hq0; [discriminate| apply window_bounds, Hr0 | lia].
Qed.

Lemma accepted_headers sh r :
  accepted sh r -> st_headers (scan_headers sh) = row_values sh r.
Proof.
  unfold accepted.
  destruct (scan_headers_outcome sh) as [Hnone | r0 Hr0 Hq0 Hfirst]; simpl.
  - discriminate.
  - intros [= Heq]. assert (r0 = r) as -> by lia. reflexivity.
Qed.

Lemma not_found_iff sh :
  st_data_start_row (scan_headers sh) = None <->
  forall r, in_window sh r -> qualifies sh r = false.
Proof.
  destruct (scan_headers_outcome sh) as [Hnone | r0 Hr0 Hq0 Hfirst]; simpl.
  - split; [|reflexivity]. intros _ r Hw. apply Hnone, window_bounds, Hw.
  - split; [discriminate|]. intros H.
    rewrite H in Hq0; [discriminate | apply window_bounds, Hr0].
Qed.

Lemma non_empty_length_le l : length (non_empty l) <= length l.
Proof. apply filter_length_le. Qed.

Lemma accepted_headers_truthy sh r :
  accepted sh r -> list_truthy (st_headers (scan_headers sh)) = true.
Proof.
  intros Ha. rewrite (accepted_headers sh r Ha).
  apply accepted_first in Ha as (_ & Hq & _).
  apply qualifies_spec in Hq as [Hc _]. unfold candidate in Hc.
  pose proof (non_empty_length_le (row_values sh r)).
  destruct (row_values sh r); simpl in *; [lia | reflexivity].
Qed.

(** C2. The scan accepts exactly the lowest row of the window that has more
    than 3 non-empty cells and whose joined lower-cased text contains a
    keyword; rows with at most 3 non-empty cells and candidate rows without
    keyword are passed over, and after an acceptance no row changes the
    result. *)
Theorem header_is_first_qualifying_row (sh : worksheet) :
  (forall r, accepted sh r <->
     in_window sh r /\ candidate sh r /\ keyword_match sh r /\
     forall r', in_window sh r' -> r' < r ->
                ~ (candidate sh r' /\ keyword_match sh r'))
  /\ (forall r, accepted sh r -> st_headers (scan_headers sh) = row_values sh r)
  /\ (forall r, length (non_empty (row_values sh r)) <= 3 -> ~ accepted sh r)
  /\ (forall r, candidate sh r -> ~ keyword_match sh r -> ~ accepted sh r)
  /\ (st_data_start_row (scan_headers sh) = None <->
      forall r, in_window sh r -> ~ (candidate sh r /\ keyword_match sh r))
  /\ (forall st d row, st_data_start_row st = Some (d + 1) ->
                       scan_row sh st row = st)
  /\ accepted regression_sheet 2.
Proof.
  assert (Hnq : forall r, qualifies sh r = false <->
                          ~ (candidate sh r /\ keyword_match sh r)).
  { intros r. rewrite <- qualifies_spec. destruct (qualifies sh r); split;
      intros; congruence. }
  split; [|split; [|split; [|split; [|split; [|split]]]]].
  - intros r. split.
    + intros Ha. apply accepted_first in Ha as (Hw & Hq & Hmin).
      apply qualifies_spec in Hq as [Hc Hk].
      split; [assumption|]. split; [assumption|]. split; [assumption|].
      intros r' Hw' Hlt. apply Hnq. auto.
    + intros (Hw & Hc & Hk & Hmin). apply accepted_first.
      split; [assumption|]. split; [apply qualifies_spec; tauto|].
      intros r' Hw' Hlt. apply Hnq. auto.
  - apply accepted_headers.
  - intros r Hle Ha. apply accepted_first in Ha as (_ & Hq & _).
    apply qualifies_spec in Hq as [Hc _]. unfold candidate in Hc. lia.
  - intros r _ Hk Ha. apply accepted_first in Ha as (_ & Hq & _).
    apply qualifies_spec in Hq. tauto.
  - split.
    + intros H r Hw. apply Hnq. revert r Hw. apply not_found_iff, H.
    + intros H. apply not_found_iff. intros r Hw. apply Hnq, H, Hw.
  - intros st d row Hd. apply scan_row_found. rewrite Hd. simpl.
    apply Nat.eqb_neq. lia.
  - vm_compute. reflexivity.
Qed.

Lemma truthy_iff s : PyStr.truthy s = true <-> s <> "".
Proof. destruct s; simpl; split; congruence. Qed.

(** Whatever the sheet, the record names row 1 as the header row or none. *)
Lemma header_row_reported name sh :
  header_row (analyze_sheet name sh) =
  if list_truthy (st_headers (scan_headers sh)) then Some 1 else None.
Proof. reflexivity. Qed.

Lemma accepted_reported name sh r :
  accepted sh r ->
  header_row (analyze_sheet name sh) = Some 1 /\
  data_start_row (analyze_sheet name sh) = Some (r + 1) /\
  headers (analyze_sheet name sh) = header_details (row_values sh r).
Proof.
  intros Ha. unfold analyze_sheet. simpl.
  rewrite (accepted_headers_truthy sh r Ha), (accepted_headers sh r Ha).
  auto.
Qed.

(** C1. On the end-to-end scenario the scan accepts row 2 and the record
    gives 3 as the data-start row, but its header row index is 1, not 2. *)
Theorem scenario_reports_header_row_1 (name : string) :
  accepted scenario 2
  /\ data_start_row (analyze_sheet name scenario) = Some 3
  /\ header_row (analyze_sheet name scenario) = Some 1
  /\ header_row (analyze_sheet name scenario) <> Some 2.
Proof.
  assert (Ha : accepted scenario 2) by (vm_compute; reflexivity).
  destruct (accepted_reported name scenario 2 Ha) as (Hh & Hd & _).
  rewrite Hh, Hd.
  split; [exact Ha|]. split; [reflexivity|]. split; [reflexivity|discriminate].
Qed.

(** C9, as stated, fails on a header row of 31 cells: the row is accepted
    and has 31 detected header cells, yet the mapping has 30 entries and
    none for the cell at position 31. *)
Lemma wide_header_mapping_truncated :
  accepted wide_sheet 1
  /\ length (clean_headers (row_values wide_sheet 1)) = 31
  /\ clean_headers (row_values wide_sheet 1) !! 30 = Some "Name"
  /\ length (headers (analyze_sheet "Sheet1" wide_sheet)) = 30
  /\ forallb (fun d => negb (column_index d =? 31))
       (headers (analyze_sheet "Sheet1" wide_sheet)) = true.
Proof. vm_compute. repeat split; reflexivity. Qed.

Lemma clean_headers_nonempty hs h : In h (clean_headers hs) -> h <> "".
Proof.
  unfold clean_headers. rewrite in_map_iff. intros (x & <- & Hx).
  apply filter_In in Hx as [_ Hx]. apply truthy_iff, Hx.
Qed.

(** C9, amended. For an accepted header row the mapping has one entry for
    each of the first 30 detected (non-empty, stripped) header cells: the
    entry at position [i] carries the ordinal [i+1], the header text and the
    placeholders; no two entries share an ordinal, and every entry comes
    from such a cell. *)
Theorem column_mapping_first_30 (name : string) (sh : worksheet) (r : nat) :
  accepted sh r ->
  let clean := clean_headers (row_values sh r) in
  let out := headers (analyze_sheet name sh) in
  length out = Nat.min 30 (length clean)
  /\ (forall h, In h clean -> h <> "")
  /\ (forall i h, i < 30 -> clean !! i = Some h ->
        out !! i = Some {| column_index := i + 1;
                           header_name := h;
                           database_mapping := "TO_BE_MAPPED_" +:+ pretty (i + 1);
                           required := "UNKNOWN";
                           data_type := "UNKNOWN" |})
  /\ (forall i d, out !! i = Some d ->
        i < 30 /\ clean !! i = Some (header_name d) /\ column_index d = i + 1)
  /\ (forall i j d d', out !! i = Some d -> out !! j = Some d' ->
        column_index d = column_index d' -> i = j).
Proof.
  intros Ha clean out.
  destruct (accepted_reported name sh r Ha) as (_ & _ & Hout).
  assert (Hlk : forall i, out !! i =
            detail_of (i + 1) <$> (take 30 clean !! i)).
  { intros i. subst out. rewrite Hout. unfold header_details.
    rewrite list_lookup_imap. reflexivity. }
  assert (Hinv : forall i d, out !! i = Some d ->
            i < 30 /\ clean !! i = Some (header_name d) /\ column_index d = i + 1).
  { intros i d Hd. rewrite Hlk in Hd.
    destruct (take 30 clean !! i) as [h|] eqn:Hh; [|discriminate].
    injection Hd as <-. apply lookup_take_Some in Hh as [Hh Hi]. auto. }
  split; [|split; [|split; [|split]]].
  - subst out. rewrite Hout. unfold header_details.
    rewrite length_imap, length_take. reflexivity.
  - intros h. apply clean_headers_nonempty.
  - intros i h Hi Hh. rewrite Hlk, lookup_take_lt, Hh by assumption.
    reflexivity.
  - exact Hinv.
  - intros i j d d' Hd Hd' Heq.
    apply Hinv in Hd as (_ & _ & Hi). apply Hinv in Hd' as (_ & _ & Hj). lia.
Qed.

(** The theorem applies to the end-to-end scenario, whose header is row 2. *)
Lemma column_mapping_first_30_witness :
  accepted scenario 2 /\
  length (headers (analyze_sheet "Sheet1" scenario))
  = Nat.min 30 (length (clean_headers (row_values scenario 2))).
Proof.
  assert (Ha : accepted scenario 2) by (vm_compute; reflexivity).
  split; [exact Ha|].
  exact (proj1 (column_mapping_first_30 "Sheet1" scenario 2 Ha)).
Defined.

End HeaderLocatorFacts.

(** ** Python's string methods: facts *)

Section PyStrFacts.

Lemma lstrip_head s :
  lstrip s = "" \/ exists c t, lstrip s = String c t /\ isspace c = false.
Proof.
  induction s as [|c s IH]; simpl; [left; reflexivity|].
  destruct (isspace c) eqn:Hc; [exact IH|]. right. eauto.
Qed.

Lemma rstrip_idem s : rstrip (rstrip s) = rstrip s.
Proof.
  induction s as [|c s IH]; simpl; [reflexivity|].
  destruct (rstrip s) as [|d r] eqn:Hr.
  - destruct (isspace c) eqn:Hc; simpl; [reflexivity|]. rewrite Hc. reflexivity.
  - change (rstrip (String c (String d r))) with
      (match rstrip (String d r) with
       | "" => if isspace c then "" else String c ""
       | String a b => String c (String a b)
       end).
    rewrite IH. reflexivity.
Qed.

Lemma rstrip_head c s :
  isspace c = false -> exists t, rstrip (String c s) = String c t.
Proof.
  intros Hc. simpl. destruct (rstrip s); [rewrite Hc|]; eauto.
Qed.

(** Stripping a stripped string changes nothing. *)
Lemma strip_idem s : strip (strip s) = strip s.
Proof.
  unfold strip. destruct (lstrip_head s) as [-> | (c & t & -> & Hc)].
  - reflexivity.
  - destruct (rstrip_head c t Hc) as [u Hu]. rewrite Hu.
    simpl lstrip. rewrite Hc, <- Hu. apply rstrip_idem.
Qed.

Lemma split_length c s : length (split c s) = S (count_char c s).
Proof.
  induction s as [|a s IH]; simpl; [reflexivity|].
  destruct (Ascii.eqb a c); simpl; [rewrite IH; reflexivity|].
  destruct (split c s); simpl in *; lia.
Qed.

Lemma split_no_sep c s : count_char c s = 0 -> split c s = [s].
Proof.
  induction s as [|a s IH]; simpl; [reflexivity|].
  destruct (Ascii.eqb a c); simpl; [discriminate|].
  intros H. rewrite IH by assumption. reflexivity.
Qed.

Lemma split_app c a b :
  count_char c a = 0 -> split c (a +:+ String c b) = a :: split c b.
Proof.
  induction a as [|x a IH]; simpl.
  - intros _. rewrite Ascii.eqb_refl. reflexivity.
  - destruct (Ascii.eqb x c); simpl; [discriminate|].
    intros H. rewrite IH by assumption. reflexivity.
Qed.

Lemma contains_char s c :
  contains s (String c "") = true <-> count_char c s <> 0.
Proof.
  induction s as [|a s IH]; simpl; [split; [discriminate | congruence]|].
  replace (startswith s "") with true by (destruct s; reflexivity).
  rewrite (Ascii.eqb_sym c a), andb_true_r.
  destruct (Ascii.eqb a c); simpl; [split; [lia | reflexivity]|].
  exact IH.
Qed.

Lemma count_one_split c s :
  count_char c s = 1 ->
  exists a b, s = a +:+ String c b /\ count_char c a = 0 /\ count_char c b = 0.
Proof.
  induction s as [|x s IH]; simpl; [discriminate|].
  destruct (Ascii.eqb x c) eqn:Hx; simpl.
  - intros H. apply Ascii.eqb_eq in Hx as ->.
    exists "", s. simpl. split; [reflexivity|]. split; [reflexivity | lia].
  - intros H. destruct (IH H) as (a & b & -> & Ha & Hb).
    exists (String x a), b. simpl. rewrite Hx. auto.
Qed.

Lemma count_char_app c a b :
  count_char c (a +:+ b) = count_char c a + count_char c b.
Proof. induction a as [|x a IH]; simpl; [reflexivity | rewrite IH; lia]. Qed.

End PyStrFacts.

(** ** First occurrences *)

Lemma first_occurrences_elem l x : x ∈ first_occurrences l <-> x ∈ l.
Proof.
  induction l as [|y l IH]; simpl; [reflexivity|].
  rewrite !elem_of_cons, list_elem_of_filter, IH.
  destruct (decide (x = y)); tauto.
Qed.

Lemma first_occurrences_NoDup l : NoDup (first_occurrences l).
Proof.
  induction l as [|y l IH]; simpl; [constructor|].
  apply NoDup_cons. split.
  - rewrite list_elem_of_filter. tauto.
  - apply NoDup_filter, IH.
Qed.

Lemma filter_all {A} (P : A -> Prop) `{!forall x, Decision (P x)} (l : list A) :
  (forall x, x ∈ l -> P x) -> filter P l = l.
Proof.
  induction l as [|y l IH]; intros Hall; [reflexivity|].
  rewrite filter_cons_True by (apply Hall; left).
  f_equal. apply IH. intros x Hx. apply Hall. right. exact Hx.
Qed.

Lemma filter_none {A} (P : A -> Prop) `{!forall x, Decision (P x)} (l : list A) :
  (forall x, x ∈ l -> ~ P x) -> filter P l = [].
Proof.
  induction l as [|y l IH]; intros Hall; [reflexivity|].
  rewrite filter_cons_False by (apply Hall; left).
  apply IH. intros x Hx. apply Hall. right. exact Hx.
Qed.

Lemma first_occurrences_NoDup_id l : NoDup l -> first_occurrences l = l.
Proof.
  induction 1 as [|y l Hy Hl IH]; simpl; [reflexivity|].
  rewrite IH. f_equal. apply filter_all. intros x Hx ->. contradiction.
Qed.

(** ** Rule-Identifier Extractor *)

Section RuleExtractorFacts.

Lemma blank_cell_no_identifier v : blank_cell v -> cell_identifier v = None.
Proof.
  unfold cell_identifier, has_rule_id.
  intros [-> | (s & -> & Hs)]; simpl; [reflexivity|].
  rewrite Hs, andb_false_r. reflexivity.
Qed.

Lemma falsy_cell_no_identifier :
  cell_identifier (CInt 0) = None /\ cell_identifier (CBool false) = None.
Proof. split; reflexivity. Qed.

Lemma extract_cell_identifier st v :
  extract_cell st v =
  match cell_identifier v with
  | None => st
  | Some rule_id =>
      if decide (rule_id ∈ rule_ids_seen st) then st
      else {| rules := rules st ++ [build_rule rule_id];
              rule_ids_seen := {[rule_id]} ∪ rule_ids_seen st |}
  end.
Proof.
  unfold extract_cell, cell_identifier. destruct (has_rule_id v); reflexivity.
Qed.

(** The rules the loop adds to a state: the first occurrences of the
    identifiers not seen before. *)
Lemma fold_extract_rules cells : forall st,
  rules (fold_left extract_cell cells st) =
  rules st ++ map build_rule
    (filter (fun x => x ∉ rule_ids_seen st)
            (first_occurrences (identifiers cells))).
Proof.
  induction cells as [|v cells IH]; intros st; simpl.
  - rewrite app_nil_r. reflexivity.
  - rewrite IH, extract_cell_identifier. unfold identifiers. simpl.
    fold (identifiers cells).
    destruct (cell_identifier v) as [x|]; simpl; [|reflexivity].
    destruct (decide (x ∈ rule_ids_seen st)) as [Hin|Hnin]; simpl.
    + rewrite filter_cons_False by tauto.
      rewrite list_filter_filter_l; [reflexivity|].
      intros y Hy ->. contradiction.
    + rewrite filter_cons_True by assumption. simpl.
      rewrite <- app_assoc. simpl. do 3 f_equal.
      rewrite list_filter_filter. apply list_filter_iff.
      intros y. rewrite not_elem_of_union, not_elem_of_singleton. tauto.
Qed.

Lemma extract_cells_spec cells :
  extract_cells cells = map build_rule (first_occurrences (identifiers cells)).
Proof.
  unfold extract_cells. rewrite fold_extract_rules. simpl.
  f_equal. apply filter_all. intros x _. apply not_elem_of_empty.
Qed.

Lemma extract_cells_ids cells :
  map ruleId (extract_cells cells) = first_occurrences (identifiers cells).
Proof.
  rewrite extract_cells_spec, map_map. simpl. apply map_id.
Qed.

Lemma extract_cells_app cells cells' :
  extract_cells cells `prefix_of` extract_cells (cells ++ cells').
Proof.
  unfold extract_cells. rewrite fold_left_app, (fold_extract_rules cells').
  eexists. reflexivity.
Qed.

Lemma identifier_stripped cells x :
  x ∈ identifiers cells -> x <> "" /\ strip x = x.
Proof.
  unfold identifiers. rewrite list_elem_of_omap.
  intros (v & _ & Hv). unfold cell_identifier, has_rule_id in Hv.
  destruct (py_truthy v && truthy (strip (py_str v))) eqn:Hg; [|discriminate].
  injection Hv as <-. apply andb_true_iff in Hg as [_ Hg].
  split; [apply truthy_iff, Hg | apply strip_idem].
Qed.

Lemma identifiers_of_ids l :
  (forall x, x ∈ l -> x <> "" /\ strip x = x) -> identifiers (map CStr l) = l.
Proof.
  induction l as [|x l IH]; intros H; [reflexivity|].
  unfold identifiers in *. simpl.
  destruct (H x) as [Hne Hs]; [left|].
  unfold cell_identifier at 1, has_rule_id. simpl.
  rewrite Hs. apply truthy_iff in Hne. rewrite Hne. simpl.
  f_equal. apply IH. intros y Hy. apply H. right. exact Hy.
Qed.

(** Feeding the identifiers of the output back in gives the same output. *)
Lemma extract_cells_idempotent cells :
  extract_cells (map CStr (map ruleId (extract_cells cells)))
  = extract_cells cells.
Proof.
  rewrite extract_cells_ids, !extract_cells_spec.
  apply (f_equal (map build_rule)).
  rewrite identifiers_of_ids.
  - apply first_occurrences_NoDup_id, first_occurrences_NoDup.
  - intros x Hx. rewrite first_occurrences_elem in Hx.
    eapply identifier_stripped, Hx.
Qed.

Lemma parse_parameter_one a b :
  count_char "-" a = 0 -> count_char "-" b = 0 ->
  parse_parameter (a +:+ "-" +:+ b) = Some (lower b).
Proof.
  intros Ha Hb. unfold parse_parameter.
  change (a +:+ "-" +:+ b) with (a +:+ String "-" b).
  assert (Hc : contains (a +:+ String "-" b) "-" = true).
  { apply contains_char. rewrite count_char_app. simpl. lia. }
  rewrite Hc, split_app, split_no_sep by assumption. reflexivity.
Qed.

Lemma parse_parameter_none rule_id :
  count_char "-" rule_id <> 1 -> parse_parameter rule_id = None.
Proof.
  intros Hn. unfold parse_parameter.
  destruct (contains rule_id "-"); [|reflexivity].
  pose proof (split_length "-" rule_id) as Hl.
  destruct (split "-" rule_id) as [|x [|y [|z l]]]; simpl in Hl;
    try reflexivity.
  lia.
Qed.

Lemma extract_single rule_id :
  rule_id <> "" -> strip rule_id = rule_id ->
  extract_cells [CStr rule_id] = [build_rule rule_id].
Proof.
  intros Hne Hs. rewrite extract_cells_spec. unfold identifiers. simpl.
  unfold cell_identifier, has_rule_id. simpl. rewrite Hs.
  apply truthy_iff in Hne. rewrite Hne. reflexivity.
Qed.

(** C3. The category of a rule id is the one of the first matching prefix
    of the table, [WATER_QUALITY] if none matches; the parameter is the
    lower-cased text after the hyphen exactly when the id has exactly one
    hyphen and is absent otherwise; the record is emitted in every case. *)
Theorem classification_and_parameter :
  (forall rule_id,
     rule_category (build_rule rule_id) = first_match prefix_table rule_id)
  /\ (forall a b, count_char "-" a = 0 -> count_char "-" b = 0 ->
        parameter (build_rule (a +:+ "-" +:+ b)) = Some (lower b))
  /\ (forall rule_id, count_char "-" rule_id = 1 ->
        exists a b, rule_id = a +:+ "-" +:+ b /\
                    parameter (build_rule rule_id) = Some (lower b))
  /\ (forall rule_id, count_char "-" rule_id <> 1 ->
        parameter (build_rule rule_id) = None)
  /\ (forall rule_id, rule_id <> "" -> strip rule_id = rule_id ->
        extract_cells [CStr rule_id] = [build_rule rule_id]
        /\ ruleId (build_rule rule_id) = rule_id)
  /\ (rule_category (build_rule "T1.8-ecol") = BACTERIOLOGICAL
      /\ parameter (build_rule "T1.8-ecol") = Some "ecol")
  /\ (rule_category (build_rule "T3.2-Crypto") = PROTOZOA
      /\ parameter (build_rule "T3.2-Crypto") = Some "crypto")
  /\ (rule_category (build_rule "X9.1") = WATER_QUALITY
      /\ parameter (build_rule "X9.1") = None).
Proof.
  split; [|split; [|split; [|split; [|split]]]].
  - intros rule_id. reflexivity.
  - intros a b Ha Hb. apply parse_parameter_one; assumption.
  - intros rule_id H1. destruct (count_one_split _ _ H1) as (a & b & -> & Ha & Hb).
    exists a, b. split; [reflexivity|]. apply parse_parameter_one; assumption.
  - intros rule_id Hn. apply parse_parameter_none, Hn.
  - intros rule_id Hne Hs. split; [apply extract_single; assumption|reflexivity].
  - repeat split; reflexivity.
Qed.

Lemma classification_and_parameter_witness :
  parameter (build_rule "T2.1-pH") = Some "ph"
  /\ extract_cells [CStr "M4"] = [build_rule "M4"].
Proof.
  destruct classification_and_parameter as (_ & Hone & _ & _ & Hemit & _).
  split.
  - apply (Hone "T2.1" "pH"); reflexivity.
  - apply (Hemit "M4"); [discriminate | reflexivity].
Defined.

(** C4. The output holds one record per distinct identifier, in the order
    of first occurrence: it is the list of first occurrences of the
    identifiers of the cells, it has no duplicate, it has exactly the
    identifiers of the input, more input only appends to it, and a blank
    cell contributes nothing. *)
Theorem one_record_per_identifier_in_first_seen_order
    (cells : list cell_value) :
  extract_cells cells = map build_rule (first_occurrences (identifiers cells))
  /\ map ruleId (extract_cells cells) = first_occurrences (identifiers cells)
  /\ NoDup (map ruleId (extract_cells cells))
  /\ (forall rule_id,
        rule_id ∈ map ruleId (extract_cells cells) <->
        rule_id ∈ identifiers cells)
  /\ (forall cells',
        extract_cells cells `prefix_of` extract_cells (cells ++ cells'))
  /\ (forall before v after, blank_cell v -> cells = before ++ v :: after ->
        extract_cells cells = extract_cells (before ++ after)).
Proof.
  split; [apply extract_cells_spec|]. split; [apply extract_cells_ids|].
  split; [rewrite extract_cells_ids; apply first_occurrences_NoDup|].
  split; [intros x; rewrite extract_cells_ids; apply first_occurrences_elem|].
  split; [intros cells'; apply extract_cells_app|].
  intros before v after Hv ->. rewrite !extract_cells_spec.
  unfold identifiers. rewrite !omap_app. simpl.
  rewrite (blank_cell_no_identifier v Hv). reflexivity.
Qed.

Lemma one_record_per_identifier_witness :
  extract_cells [CStr "T1.1"; CStr "   "; CStr "M2"; CNone; CStr " T1.1"]
  = extract_cells [CStr "T1.1"; CStr "M2"; CNone; CStr " T1.1"]
  /\ map ruleId
       (extract_cells [CStr "T1.1"; CStr "   "; CStr "M2"; CNone; CStr " T1.1"])
     = ["T1.1"; "M2"].
Proof.
  pose proof (one_record_per_identifier_in_first_seen_order
                [CStr "T1.1"; CStr "   "; CStr "M2"; CNone; CStr " T1.1"])
    as (_ & Hids & _ & _ & _ & Hblank).
  split.
  - apply (Hblank [CStr "T1.1"] (CStr "   ")
                  [CStr "M2"; CNone; CStr " T1.1"]).
    + right. exists "   ". split; reflexivity.
    + reflexivity.
  - rewrite Hids. reflexivity.
Defined.

Lemma filter_eq_NoDup (l : list string) x :
  NoDup l -> x ∈ l -> length (filter (fun y => y = x) l) = 1.
Proof.
  induction 1 as [|y l Hy Hl IH]; intros Hx; [inversion Hx|].
  destruct (decide (y = x)) as [->|Hne].
  - rewrite filter_cons_True by reflexivity. simpl. f_equal.
    rewrite filter_none; [reflexivity|].
    intros z Hz ->. contradiction.
  - rewrite filter_cons_False by assumption. apply IH.
    apply elem_of_cons in Hx as [->|Hx]; [contradiction | exact Hx].
Qed.

Lemma filter_rule_id l x :
  length (filter (fun r => ruleId r = x) (map build_rule l))
  = length (filter (fun y => y = x) l).
Proof.
  induction l as [|y l IH]; [reflexivity|]. simpl map.
  rewrite !filter_cons. simpl ruleId.
  destruct (decide (y = x)); simpl; rewrite IH; reflexivity.
Qed.

(** C5. An identifier that occurs in the input, three times or any number
    of times, has exactly one record; two cells give one record when their
    stripped texts are the same string and two when they differ; and the
    output is a function of the input alone. *)
Theorem duplicates_yield_one_record :
  (forall cells rule_id, rule_id ∈ identifiers cells ->
     length (filter (fun r => ruleId r = rule_id) (extract_cells cells)) = 1)
  /\ (forall s, strip s <> "" ->
        extract_cells [CStr s; CStr s; CStr s] = [build_rule (strip s)])
  /\ (forall s t, strip s <> "" -> strip t <> "" ->
        extract_cells [CStr s; CStr t] =
        if decide (strip s = strip t) then [build_rule (strip s)]
        else [build_rule (strip s); build_rule (strip t)])
  /\ (forall cells run1 run2,
        run1 = extract_cells cells -> run2 = extract_cells cells ->
        run1 = run2).
Proof.
  assert (Hid : forall s, strip s <> "" ->
                          cell_identifier (CStr s) = Some (strip s)).
  { intros s Hs. unfold cell_identifier, has_rule_id. simpl.
    assert (Hne : s <> "") by (intros ->; apply Hs; reflexivity).
    apply truthy_iff in Hne, Hs. rewrite Hne, Hs. reflexivity. }
  split; [|split; [|split]].
  - intros cells x Hx. rewrite extract_cells_spec, filter_rule_id.
    apply filter_eq_NoDup; [apply first_occurrences_NoDup|].
    apply first_occurrences_elem, Hx.
  - intros s Hs. rewrite extract_cells_spec. unfold identifiers. simpl.
    rewrite (Hid s Hs). simpl.
    rewrite !filter_cons_False by tauto. reflexivity.
  - intros s t Hs Ht. rewrite extract_cells_spec. unfold identifiers. simpl.
    rewrite (Hid s Hs), (Hid t Ht). simpl.
    destruct (decide (strip s = strip t)) as [Heq|Hne].
    + rewrite Heq, filter_cons_False by tauto. reflexivity.
    + rewrite filter_cons_True by congruence. reflexivity.
  - intros cells run1 run2 -> ->. reflexivity.
Qed.

Lemma duplicates_yield_one_record_witness :
  length (filter (fun r => ruleId r = "T1.8-ecol")
            (extract_cells [CStr "T1.8-ecol"; CStr "T1.8-ecol";
                            CStr "T2.1-pH"; CStr "T1.8-ecol"])) = 1
  /\ extract_cells [CStr "T1.8-ecol"; CStr "T1.8-ecol"; CStr "T1.8-ecol"]
     = [build_rule "T1.8-ecol"].
Proof.
  destruct duplicates_yield_one_record as (Hone & Hthree & _).
  split.
  - apply Hone. vm_compute. left.
  - apply (Hthree "T1.8-ecol"). discriminate.
Defined.

End RuleExtractorFacts.

(** ** Keyword-Bucket Scanner *)

Section KeywordScannerFacts.

Lemma bucket_match_spec keywords lo hi line :
  bucket_match keywords lo hi line = true <->
  (exists k, In k keywords /\ contains (lower line) k = true)
  /\ lo < String.length (strip line) /\ String.length (strip line) < hi.
Proof.
  unfold bucket_match, any_in.
  destruct (existsb _ keywords) eqn:He.
  - rewrite andb_true_iff, !Nat.ltb_lt. apply existsb_exists in He. tauto.
  - split; [discriminate|]. intros [Hk _].
    apply existsb_exists in Hk. congruence.
Qed.

Lemma dom_scan_line m line : dom (scan_line m line) = dom m.
Proof.
  unfold scan_line, append_to.
  repeat case_if; rewrite ?dom_alter_L; reflexivity.
Qed.

Lemma dom_collect lines : dom (collect lines) = bucket_keys.
Proof.
  unfold collect. induction lines as [|line lines IH] using rev_ind.
  - vm_compute. reflexivity.
  - rewrite fold_left_app. simpl. rewrite dom_scan_line. exact IH.
Qed.

Lemma scan_line_lookup m line key :
  scan_line m line !! key =
  (fun l => l ++ if bucket_test key line then [strip line] else [])
    <$> m !! key.
Proof.
  assert (Hid : forall o : option (list string),
            o = (fun l => l ++ []) <$> o).
  { intros [l|]; simpl; [rewrite app_nil_r|]; reflexivity. }
  unfold scan_line, append_to, bucket_test.
  destruct (decide (key = "high_risk_areas")) as [->|H1];
    [|destruct (decide (key = "supply_categories")) as [->|H2];
      [|destruct (decide (key = "risk_factors")) as [->|H3]]];
    repeat case_if;
    rewrite ?lookup_alter_eq, ?lookup_alter_ne by congruence;
    rewrite ?lookup_alter_eq, ?lookup_alter_ne by congruence;
    rewrite ?lookup_alter_eq, ?lookup_alter_ne by congruence;
    try reflexivity; apply Hid.
Qed.

Lemma collect_is_Some lines key :
  key ∈ bucket_keys -> is_Some (collect lines !! key).
Proof. rewrite <- (dom_collect lines). apply elem_of_dom. Qed.

Lemma collect_None lines key :
  key ∉ bucket_keys -> collect lines !! key = None.
Proof. rewrite <- (dom_collect lines). apply not_elem_of_dom. Qed.

Lemma collect_lookup lines key :
  key ∈ bucket_keys -> collect lines !! key = Some (collected lines key).
Proof.
  intros Hk. unfold collected.
  destruct (collect_is_Some lines key Hk) as [l ->]. reflexivity.
Qed.

(** What one more line adds to a bucket. *)
Lemma collected_snoc lines line key :
  key ∈ bucket_keys ->
  collected (lines ++ [line]) key =
  collected lines key ++ if bucket_test key line then [strip line] else [].
Proof.
  intros Hk. unfold collected at 1. unfold collect.
  rewrite fold_left_app. simpl. fold (collect lines).
  rewrite scan_line_lookup, (collect_lookup lines key Hk). reflexivity.
Qed.

(** The lines collected in a bucket: the stripped matching lines, in the
    order of the text. *)
Lemma collected_spec lines key :
  collected lines key = map strip (List.filter (bucket_test key) lines).
Proof.
  destruct (decide (key ∈ bucket_keys)) as [Hk|Hk].
  - induction lines as [|line lines IH] using rev_ind.
    + unfold collected. destruct (collect_lookup [] key Hk). revert Hk.
      unfold bucket_keys. rewrite !elem_of_union, !elem_of_singleton.
      intros [[[[->| ->]| ->]| ->]| ->]; reflexivity.
    + rewrite collected_snoc, IH, List.filter_app, map_app by assumption.
      simpl. destruct (bucket_test key line); reflexivity.
  - unfold collected. rewrite collect_None by assumption. simpl.
    assert (Hf : forall line, bucket_test key line = false).
    { intros line. unfold bucket_test, bucket_keys in *.
      repeat case_decide; subst; try reflexivity; exfalso; apply Hk;
        set_solver. }
    induction lines as [|line lines IH]; simpl; [reflexivity|].
    rewrite Hf. exact IH.
Qed.

(** *** Listings of a set *)

Lemma insertion_order_listing : set_listing insertion_order.
Proof.
  intros l. split; [apply first_occurrences_NoDup|].
  intros x. apply first_occurrences_elem.
Qed.

Lemma reverse_order_listing : set_listing reverse_order.
Proof.
  intros l. unfold reverse_order. split.
  - rewrite reverse_Permutation. apply first_occurrences_NoDup.
  - intros x. rewrite elem_of_reverse. apply first_occurrences_elem.
Qed.

Section Listing.
Variable set_order : list string -> list string.
Hypothesis set_order_listing : set_listing set_order.

Lemma listing_nil : set_order [] = [].
Proof.
  destruct (set_order_listing []) as [_ He].
  destruct (set_order []) as [|x l]; [reflexivity|].
  exfalso. apply (not_elem_of_nil x), He. left.
Qed.

(** A listing has as many entries as the list has distinct elements. *)
Lemma listing_length l :
  length (set_order l) = size (list_to_set (C:=gset string) l).
Proof.
  destruct (set_order_listing l) as [Hn He].
  rewrite <- (size_list_to_set (C:=gset string) _ Hn). f_equal.
  apply set_eq. intros x. rewrite !elem_of_list_to_set. apply He.
Qed.

Lemma listing_singleton x : set_order [x] = [x].
Proof.
  destruct (set_order_listing [x]) as [Hn He].
  pose proof (listing_length [x]) as Hl.
  rewrite size_list_to_set in Hl by apply NoDup_singleton. simpl in Hl.
  destruct (set_order [x]) as [|y [|z l]]; simpl in Hl; try discriminate.
  f_equal. apply list_elem_of_singleton, He. left.
Qed.

Lemma extract_priorities_lookup text key :
  extract_priorities set_order text !! key =
  (fun l => take 10 (set_order l)) <$> collect (split "010" text) !! key.
Proof. unfold extract_priorities, dedup_cap. apply lookup_fmap. Qed.

Lemma extract_priorities_bucket text key bucket :
  extract_priorities set_order text !! key = Some bucket ->
  key ∈ bucket_keys /\
  bucket = take 10 (set_order (collected (split "010" text) key)).
Proof.
  rewrite extract_priorities_lookup. intros H.
  destruct (decide (key ∈ bucket_keys)) as [Hk|Hk].
  - rewrite (collect_lookup _ key Hk) in H. injection H as <-. auto.
  - rewrite (collect_None _ key Hk) in H. discriminate.
Qed.

End Listing.



(** The boundary lines in the result itself, whatever the set order. *)
Lemma boundary_lines_in_result (set_order : list string -> list string) :
  set_listing set_order ->
  extract_priorities set_order line20 !! "high_risk_areas" = Some []
  /\ extract_priorities set_order line21 !! "high_risk_areas" = Some [line21].
Proof.
  intros Hord. rewrite !extract_priorities_lookup.
  rewrite !collect_lookup by (vm_compute; set_solver).
  replace (collected (split "010" line20) "high_risk_areas") with (@nil string)
    by (vm_compute; reflexivity).
  replace (collected (split "010" line21) "high_risk_areas") with [line21]
    by (vm_compute; reflexivity).
  simpl. rewrite (listing_nil _ Hord), (listing_singleton _ Hord).
  split; reflexivity.
Qed.

(** *** Cap, distinctness and the dependence on the set order *)

(** Lines that differ only in surrounding whitespace are one entry. *)
Lemma whitespace_variants_merge :
  extract_priorities insertion_order
    ("critical issue number 1" +:+ nl +:+ "  critical issue number 1 ")
    !! "high_risk_areas"
  = Some ["critical issue number 1"].
Proof. vm_compute. reflexivity. Qed.

Lemma NoDup_take {A} (l : list A) n : NoDup l -> NoDup (take n l).
Proof. intros H. eapply sublist_NoDup; [exact H | apply sublist_take]. Qed.

Lemma elem_of_take_list {A} (l : list A) n x : x ∈ take n l -> x ∈ l.
Proof. intros H. eapply elem_of_sublist; [exact H | apply sublist_take]. Qed.

(** C7. Whatever the order in which the set is listed, a bucket of the
    result has at most 10 entries, all distinct, all of them stripped
    matching lines of the text, and as many as there are distinct ones up
    to 10: with 15 distinct matching lines it has exactly 10. *)
Theorem buckets_distinct_capped_at_10
    (set_order : list string -> list string) (text key : string)
    (bucket : list string) :
  set_listing set_order ->
  extract_priorities set_order text !! key = Some bucket ->
  length bucket <= 10
  /\ NoDup bucket
  /\ (forall x, x ∈ bucket -> x ∈ matching text key)
  /\ length bucket = Nat.min 10 (distinct (matching text key))
  /\ (distinct (matching text key) = 15 -> length bucket = 10).
Proof.
  intros Hord Hb.
  apply (extract_priorities_bucket set_order) in Hb as [Hk ->].
  rewrite collected_spec. fold (matching text key).
  destruct (Hord (matching text key)) as [Hn He].
  assert (Hlen : length (take 10 (set_order (matching text key)))
                 = Nat.min 10 (distinct (matching text key))).
  { rewrite length_take, (listing_length set_order Hord). reflexivity. }
  split; [rewrite Hlen; lia|].
  split; [apply NoDup_take, Hn|].
  split; [intros x Hx; apply He; eapply elem_of_take_list, Hx|].
  split; [exact Hlen|].
  intros H15. rewrite Hlen, H15. reflexivity.
Qed.

Lemma buckets_distinct_capped_at_10_witness :
  exists bucket,
    extract_priorities insertion_order (numbered_text 15) !! "high_risk_areas"
    = Some bucket
    /\ distinct (matching (numbered_text 15) "high_risk_areas") = 15
    /\ length bucket = 10.
Proof.
  eexists. split; [vm_compute; reflexivity|].
  assert (H15 : distinct (matching (numbered_text 15) "high_risk_areas") = 15)
    by (vm_compute; reflexivity).
  split; [exact H15|].
  refine (proj2 (proj2 (proj2 (proj2
    (buckets_distinct_capped_at_10 insertion_order (numbered_text 15)
       "high_risk_areas" _ insertion_order_listing _)))) H15).
  vm_compute. reflexivity.
Defined.

(** C8, as stated, fails: two listings of the set, both as Python allows
    them, give different results on the same text.  With two matching
    lines the bucket holds them in opposite orders; with eleven, the two
    buckets do not even hold the same lines. *)
Lemma set_order_changes_buckets :
  set_listing insertion_order /\ set_listing reverse_order
  /\ extract_priorities insertion_order (numbered_text 2) !! "high_risk_areas"
     = Some ["critical issue number 1"; "critical issue number 2"]
  /\ extract_priorities reverse_order (numbered_text 2) !! "high_risk_areas"
     = Some ["critical issue number 2"; "critical issue number 1"]
  /\ extract_priorities insertion_order (numbered_text 2)
     <> extract_priorities reverse_order (numbered_text 2)
  /\ (exists b1 b2,
        extract_priorities insertion_order (numbered_text 11)
          !! "high_risk_areas" = Some b1
        /\ extract_priorities reverse_order (numbered_text 11)
             !! "high_risk_areas" = Some b2
        /\ In "critical issue number 1" b1
        /\ ~ In "critical issue number 1" b2).
Proof.
  split; [apply insertion_order_listing|].
  split; [apply reverse_order_listing|].
  split; [vm_compute; reflexivity|].
  split; [vm_compute; reflexivity|].
  split.
  - intros H.
    apply (f_equal (fun m : gmap string (list string) =>
                      m !! "high_risk_areas")) in H.
    vm_compute in H. discriminate.
  - eexists. eexists.
    split; [vm_compute; reflexivity|].
    split; [vm_compute; reflexivity|].
    split; [simpl; auto|].
    simpl. intros H. repeat destruct H as [H|H]; try discriminate. exact H.
Qed.

(** C8, amended. Two runs that list the set in the same order give the same
    result; two runs that list it in different orders give the same keys,
    buckets of the same length and, for a bucket with at most 10 distinct
    matching lines, the same lines up to their order. *)
Theorem buckets_agree_up_to_set_order
    (order1 order2 : list string -> list string) (text : string) :
  set_listing order1 -> set_listing order2 ->
  (forall run1 run2,
     run1 = extract_priorities order1 text ->
     run2 = extract_priorities order1 text -> run1 = run2)
  /\ dom (extract_priorities order1 text) = dom (extract_priorities order2 text)
  /\ (forall key b1 b2,
        extract_priorities order1 text !! key = Some b1 ->
        extract_priorities order2 text !! key = Some b2 ->
        length b1 = length b2
        /\ (distinct (matching text key) <= 10 -> b1 ≡ₚ b2)).
Proof.
  intros H1 H2.
  split; [intros run1 run2 -> ->; reflexivity|].
  split; [unfold extract_priorities, dedup_cap; rewrite !dom_fmap_L;
          reflexivity|].
  intros key b1 b2 Hb1 Hb2.
  apply (extract_priorities_bucket order1) in Hb1 as [_ ->].
  apply (extract_priorities_bucket order2) in Hb2 as [_ ->].
  rewrite collected_spec. fold (matching text key).
  split.
  - rewrite !length_take, (listing_length order1 H1),
      (listing_length order2 H2). reflexivity.
  - intros Hle. unfold distinct in Hle.
    rewrite !take_ge by (rewrite (listing_length _ H1) || rewrite (listing_length _ H2); exact Hle).
    destruct (H1 (matching text key)) as [Hn1 He1].
    destruct (H2 (matching text key)) as [Hn2 He2].
    apply NoDup_Permutation; [assumption..|].
    intros x. rewrite He1, He2. reflexivity.
Qed.

Lemma buckets_agree_up_to_set_order_witness :
  ["critical issue number 1"; "critical issue number 2"]
  ≡ₚ ["critical issue number 2"; "critical issue number 1"].
Proof.
  refine (proj2 (proj2 (proj2
    (buckets_agree_up_to_set_order insertion_order reverse_order
       (numbered_text 2) insertion_order_listing reverse_order_listing))
    "high_risk_areas" _ _ _ _) _).
  - vm_compute. reflexivity.
  - vm_compute. reflexivity.
  - vm_compute. lia.
Defined.

(** C10. The result has exactly the five keys, and the buckets
    [enforcement_focus] and [key_metrics] are empty for every text: no line
    is ever collected in them. *)
Theorem five_keys_two_always_empty
    (set_order : list string -> list string) (text : string) :
  set_listing set_order ->
  dom (extract_priorities set_order text)
  = {[ "high_risk_areas"; "enforcement_focus"; "supply_categories";
       "key_metrics"; "risk_factors" ]}
  /\ extract_priorities set_order text !! "enforcement_focus" = Some []
  /\ extract_priorities set_order text !! "key_metrics" = Some []
  /\ (forall lines, collected lines "enforcement_focus" = []
                    /\ collected lines "key_metrics" = []).
Proof.
  intros Hord.
  assert (Hnone : forall lines,
            collected lines "enforcement_focus" = []
            /\ collected lines "key_metrics" = []).
  { intros lines. rewrite !collected_spec.
    split; induction lines as [|line lines IH]; simpl; auto. }
  split.
  { unfold extract_priorities, dedup_cap. rewrite dom_fmap_L.
    apply dom_collect. }
  split; [|split; [|exact Hnone]].
  - rewrite extract_priorities_lookup, collect_lookup
      by (vm_compute; set_solver).
    rewrite (proj1 (Hnone _)). simpl.
    rewrite (listing_nil set_order Hord). reflexivity.
  - rewrite extract_priorities_lookup, collect_lookup
      by (vm_compute; set_solver).
    rewrite (proj2 (Hnone _)). simpl.
    rewrite (listing_nil set_order Hord). reflexivity.
Qed.

Lemma five_keys_two_always_empty_witness :
  extract_priorities insertion_order (numbered_text 3) !! "enforcement_focus"
  = Some []
  /\ extract_priorities insertion_order "" !! "key_metrics" = Some [].
Proof.
  split.
  - exact (proj1 (proj2 (five_keys_two_always_empty insertion_order
                           (numbered_text 3) insertion_order_listing))).
  - exact (proj1 (proj2 (proj2 (five_keys_two_always_empty insertion_order
                           "" insertion_order_listing)))).
Defined.

End KeywordScannerFacts.

(** ** Python's string methods: lower-casing, stripping and containment *)

Section PyStrMoreFacts.


Lemma isspace_lower_char c : isspace (lower_char c) = isspace c.
Proof. destruct c as [[] [] [] [] [] [] [] []]; reflexivity. Qed.



Lemma lower_app a b : lower (a +:+ b) = lower a +:+ lower b.
Proof. induction a as [|c a IH]; simpl; [reflexivity | rewrite IH; reflexivity]. Qed.


Lemma lower_lstrip s : lower (lstrip s) = lstrip (lower s).
Proof.
  induction s as [|c s IH]; simpl; [reflexivity|].
  rewrite isspace_lower_char. destruct (isspace c); [exact IH | reflexivity].
Qed.

Lemma lower_rstrip s : lower (rstrip s) = rstrip (lower s).
Proof.
  induction s as [|c s IH]; simpl; [reflexivity|].
  rewrite isspace_lower_char, <- IH.
  destruct (rstrip s); simpl; [destruct (isspace c)|]; reflexivity.
Qed.

(** Lower-casing and stripping commute. *)
Lemma lower_strip s : lower (strip s) = strip (lower s).
Proof. unfold strip. rewrite lower_rstrip, lower_lstrip. reflexivity. Qed.

Lemma startswith_nil s : startswith s "" = true.
Proof. destruct s; reflexivity. Qed.

Lemma contains_nil_l k : k <> "" -> contains "" k = false.
Proof. destruct k; [congruence | reflexivity]. Qed.

Lemma contains_lstrip s k :
  first_nonspace k = true -> contains (lstrip s) k = contains s k.
Proof.
  intros Hk. induction s as [|c s IH]; [reflexivity|].
  simpl lstrip. destruct (isspace c) eqn:Hc; [|reflexivity].
  rewrite IH. simpl contains.
  destruct k as [|y k]; [discriminate|]. simpl in Hk.
  simpl startswith. destruct (Ascii.eqb_spec y c) as [->|_]; [|reflexivity].
  rewrite Hc in Hk. discriminate.
Qed.

Lemma rstrip_cases c s :
  (rstrip (String c s) = "" /\ rstrip s = "")
  \/ rstrip (String c s) = String c (rstrip s).
Proof.
  simpl. destruct (rstrip s); [|right; reflexivity].
  destruct (isspace c); [left | right]; auto.
Qed.

Lemma last_nonspace_cons y k :
  k <> "" -> last_nonspace (String y k) = last_nonspace k.
Proof. destruct k; [congruence | reflexivity]. Qed.

Lemma startswith_rstrip s : forall k,
  last_nonspace k = true -> startswith (rstrip s) k = startswith s k.
Proof.
  induction s as [|c s IH]; intros k Hk; [reflexivity|].
  destruct k as [|y k]; [discriminate|].
  assert (Hrest : startswith (rstrip s) k = startswith s k).
  { destruct k as [|z k]; [rewrite !startswith_nil; reflexivity|].
    apply IH. rewrite last_nonspace_cons in Hk by discriminate. exact Hk. }
  destruct (rstrip_cases c s) as [[H1 H2] | H1]; rewrite H1.
  - simpl. rewrite <- Hrest, H2.
    destruct k as [|z k]; [|rewrite andb_false_r; reflexivity].
    simpl in Hk. rewrite andb_true_r.
    destruct (Ascii.eqb_spec y c) as [->|_]; [|reflexivity].
    simpl in H1. rewrite H2 in H1.
    destruct (isspace c); [discriminate Hk | discriminate H1].
  - simpl. rewrite Hrest. reflexivity.
Qed.

Lemma contains_rstrip s k :
  last_nonspace k = true -> contains (rstrip s) k = contains s k.
Proof.
  intros Hk. induction s as [|c s IH]; [reflexivity|].
  change (contains (String c s) k)
    with (startswith (String c s) k || contains s k).
  rewrite <- (startswith_rstrip (String c s) k Hk), <- IH.
  destruct (rstrip_cases c s) as [[H1 H2] | H1]; rewrite H1.
  - rewrite H2. simpl. destruct k; reflexivity.
  - reflexivity.
Qed.

(** A keyword with solid ends occurs in a string exactly when it occurs in
    the stripped string. *)
Lemma contains_strip s k : solid k = true -> contains (strip s) k = contains s k.
Proof.
  unfold solid. intros [H1 H2]%andb_true_iff. unfold strip.
  rewrite contains_rstrip, contains_lstrip by assumption. reflexivity.
Qed.

Lemma startswith_app_sep c a b : forall k,
  count_char c k = 0 ->
  startswith (a +:+ String c b) k = startswith a k.
Proof.
  induction a as [|x a IH]; intros k Hk.
  - destruct k as [|y k]; [reflexivity|]. simpl in *.
    destruct (Ascii.eqb y c); [discriminate | reflexivity].
  - destruct k as [|y k]; [reflexivity|]. simpl in *.
    rewrite IH; [reflexivity|]. destruct (Ascii.eqb y c); [discriminate | exact Hk].
Qed.

(** A keyword without the separator occurs in [a], separator, [b] exactly
    when it occurs in [a] or in [b]. *)
Lemma contains_app_sep c a b k :
  count_char c k = 0 ->
  contains (a +:+ String c b) k = contains a k || contains b k.
Proof.
  intros Hk. induction a as [|x a IH].
  - change (contains ("" +:+ String c b) k)
      with (startswith ("" +:+ String c b) k || contains b k).
    rewrite startswith_app_sep by assumption. simpl.
    rewrite orb_false_r. reflexivity.
  - change (contains (String x a +:+ String c b) k)
      with (startswith (String x a +:+ String c b) k
            || contains (a +:+ String c b) k).
    rewrite startswith_app_sep, IH by assumption.
    simpl. rewrite orb_assoc. reflexivity.
Qed.

Lemma contains_join c l k :
  count_char c k = 0 -> k <> "" ->
  contains (join (String c "") l) k = existsb (fun v => contains v k) l.
Proof.
  intros Hk Hne. induction l as [|v l IH].
  - simpl. apply contains_nil_l, Hne.
  - destruct l as [|w l].
    + simpl. rewrite orb_false_r. reflexivity.
    + change (join (String c "") (v :: w :: l))
        with (v +:+ String c (join (String c "") (w :: l))).
      rewrite contains_app_sep, IH by assumption. reflexivity.
Qed.

Lemma lower_join_space l : lower (join " " l) = join " " (map lower l).
Proof.
  induction l as [|v l IH]; [reflexivity|].
  destruct l as [|w l]; [reflexivity|].
  change (join " " (v :: w :: l)) with (v +:+ " " +:+ join " " (w :: l)).
  rewrite !lower_app, IH. reflexivity.
Qed.

End PyStrMoreFacts.

(** ** Sheet-Header Locator: the record as a whole *)

Section HeaderLocatorMore.

Lemma clean_headers_length hs :
  length (clean_headers hs) = length (non_empty hs).
Proof. unfold clean_headers, non_empty. apply length_map. Qed.

Lemma row_values_length sh r : length (row_values sh r) = max_column sh.
Proof. unfold row_values. rewrite length_map, length_seq. reflexivity. Qed.

(** X1. The three header fields of the record stand or fall together:
    either no header was found and they are [None], [None] and the empty
    list, or the header row is given as 1, the data-start row lies between
    2 and 21 and at most one past the last row, and the mapping has
    between 4 and 30 entries, no more than the sheet has columns. *)
Theorem header_fields_consistent (name : string) (sh : worksheet) :
  let a := analyze_sheet name sh in
  (header_row a = None /\ data_start_row a = None /\ headers a = [])
  \/ (header_row a = Some 1
      /\ (exists d, data_start_row a = Some d
                    /\ 2 <= d <= 21 /\ d <= max_row sh + 1)
      /\ 4 <= length (headers a) <= 30
      /\ length (headers a) <= max_column sh).
Proof.
  intros a. subst a.
  pose proof (scan_headers_outcome sh) as Ho.
  inversion Ho as [Hnone Heq | r Hr Hq Hfirst Heq].
  - left. unfold analyze_sheet. rewrite <- Heq. simpl. auto.
  - right.
    assert (Ha : accepted sh r) by (unfold accepted; rewrite <- Heq; reflexivity).
    destruct (accepted_reported name sh r Ha) as (Hh & Hd & Hs).
    split; [exact Hh|]. split.
    + exists (r + 1). split; [exact Hd | lia].
    + rewrite Hs. unfold header_details.
      rewrite length_imap, length_take, clean_headers_length.
      pose proof (qualifies_spec sh r) as [Hc _]. specialize (Hc Hq).
      destruct Hc as [Hc _]. unfold candidate in Hc.
      pose proof (non_empty_length_le (row_values sh r)) as Hle.
      rewrite row_values_length in Hle. lia.
Qed.

(** X2. Joining the cells with a space before the keyword test changes
    nothing: a row passes the test exactly when one of its non-empty cells,
    lower-cased, contains one of the keywords. *)
Theorem keyword_match_is_per_cell (sh : worksheet) (r : nat) :
  keyword_match sh r <->
  exists v k, In v (non_empty (row_values sh r)) /\ In k header_keywords
              /\ contains (lower v) k = true.
Proof.
  assert (Hkw : forall k, In k header_keywords ->
                          count_char " " k = 0 /\ k <> "").
  { intros k Hk. simpl in Hk.
    repeat destruct Hk as [<-|Hk]; try contradiction;
      (split; [reflexivity | discriminate]). }
  unfold keyword_match. split.
  - intros (k & Hk & Hc). destruct (Hkw k Hk) as [H0 Hne].
    rewrite lower_join_space in Hc.
    change " " with (String " " "") in Hc.
    rewrite contains_join in Hc by assumption.
    apply existsb_exists in Hc as (v' & Hv' & Hc).
    apply in_map_iff in Hv' as (v & <- & Hv). eauto.
  - intros (v & k & Hv & Hk & Hc). exists k. split; [exact Hk|].
    destruct (Hkw k Hk) as [H0 Hne].
    rewrite lower_join_space. change " " with (String " " "").
    rewrite contains_join by assumption.
    apply existsb_exists. exists (lower v). split; [|exact Hc].
    apply in_map. exact Hv.
Qed.

End HeaderLocatorMore.

(** ** Rule-Identifier Extractor: records and categories *)

Section RuleExtractorMore.
Import RuleSummary.

Ltac case_eqb :=
  match goal with
  | |- context [Ascii.eqb ?x ?y] =>
      destruct (Ascii.eqb_spec x y); try discriminate; subst;
      cbn -[Ascii.eqb]
  end.

(** X3. Each category is decided by its own prefix alone, so the order of
    the tests does not matter: an id gets a category of the table exactly
    when it starts with that category's prefix, and [WATER_QUALITY]
    exactly when it starts with none of the seven. *)
Theorem category_decided_by_own_prefix (rule_id : string) :
  (categorize rule_id = BACTERIOLOGICAL <-> startswith rule_id "T1" = true)
  /\ (categorize rule_id = CHEMICAL <-> startswith rule_id "T2" = true)
  /\ (categorize rule_id = PROTOZOA <-> startswith rule_id "T3" = true)
  /\ (categorize rule_id = RADIOLOGICAL <-> startswith rule_id "T4" = true)
  /\ (categorize rule_id = MONITORING <-> startswith rule_id "M" = true)
  /\ (categorize rule_id = VERIFICATION <-> startswith rule_id "V" = true)
  /\ (categorize rule_id = OPERATIONAL <-> startswith rule_id "O" = true)
  /\ (categorize rule_id = WATER_QUALITY <->
      forall p c, In (p, c) prefix_table -> startswith rule_id p = false).
Proof.
  assert (Hall : forall (P : string -> Prop),
            (forall p c, In (p, c) prefix_table -> P p) <->
            P "T1" /\ P "T2" /\ P "T3" /\ P "T4" /\ P "M" /\ P "V" /\ P "O").
  { intros P. split.
    - intros H. repeat split; eapply H; simpl; eauto 10.
    - intros (H1 & H2 & H3 & H4 & H5 & H6 & H7) p c Hin. simpl in Hin.
      repeat destruct Hin as [[= <- <-]|Hin]; try assumption. contradiction. }
  rewrite (Hall (fun p => startswith rule_id p = false)).
  unfold categorize.
  destruct rule_id as [|a [|b s]]; cbn -[Ascii.eqb]; rewrite ?startswith_nil;
    repeat case_eqb; intuition congruence.
Qed.





Lemma count_rule_lookup m r k :
  count_rule m r !! k =
  if decide (category_name (rule_category r) = k)
  then Some (default 0 (m !! k) + 1) else m !! k.
Proof.
  unfold count_rule. rewrite lookup_insert.
  case_decide; [subst; reflexivity | reflexivity].
Qed.

Lemma fold_count_lookup rules k : forall m,
  default 0 (fold_left count_rule rules m !! k)
  = default 0 (m !! k) + length (rules_in_category k rules).
Proof.
  unfold rules_in_category.
  induction rules as [|r rules IH]; intros m; simpl; [lia|].
  rewrite IH, count_rule_lookup, filter_cons.
  case_decide; simpl; lia.
Qed.

Lemma fold_count_positive rules : forall m,
  (forall k n, m !! k = Some n -> 0 < n /\ exists c, k = category_name c) ->
  forall k n, fold_left count_rule rules m !! k = Some n ->
              0 < n /\ exists c, k = category_name c.
Proof.
  induction rules as [|r rules IH]; intros m Hm; simpl; [exact Hm|].
  apply IH. intros k n. rewrite count_rule_lookup.
  case_decide as Hk; [|apply Hm].
  intros [= <-]. split; [lia | eauto].
Qed.

Lemma category_total rules :
  sum_list (map (fun c => length (rules_in_category (category_name c) rules))
                all_categories)
  = length rules.
Proof.
  unfold rules_in_category.
  induction rules as [|r rules IH]; [reflexivity|].
  simpl in *. rewrite !filter_cons.
  destruct (rule_category r); simpl;
    repeat (case_decide; try congruence); simpl; lia.
Qed.

(** X5. The category breakdown counts right: the entry of a category is
    the number of rules of that category, a category without rule has no
    entry (never an entry 0), every key is one of the eight categories,
    and the entries add up to the number of rules. *)
Theorem category_counts_correct (rules : list rule) :
  (forall k, default 0 (category_counts rules !! k)
             = length (rules_in_category k rules))
  /\ (forall k n, category_counts rules !! k = Some n ->
        0 < n /\ exists c, k = category_name c)
  /\ (forall k, category_counts rules !! k = None <->
                rules_in_category k rules = [])
  /\ sum_list (map (fun c => default 0
                      (category_counts rules !! category_name c))
                   all_categories)
     = length rules.
Proof.
  assert (H1 : forall k, default 0 (category_counts rules !! k)
                         = length (rules_in_category k rules)).
  { intros k. unfold category_counts. rewrite fold_count_lookup.
    rewrite lookup_empty. reflexivity. }
  assert (H2 : forall k n, category_counts rules !! k = Some n ->
                           0 < n /\ exists c, k = category_name c).
  { apply fold_count_positive. intros k n. rewrite lookup_empty. discriminate. }
  split; [exact H1|]. split; [exact H2|]. split.
  - intros k. specialize (H1 k). specialize (H2 k).
    destruct (category_counts rules !! k) as [n|]; simpl in H1.
    + destruct (H2 n eq_refl) as [Hn _]. split; [discriminate|].
      intros Hnil. rewrite Hnil in H1. simpl in H1. lia.
    + split; [|reflexivity]. intros _.
      destruct (rules_in_category k rules); [reflexivity | discriminate].
  - rewrite <- (category_total rules). f_equal.
    apply map_ext. intros c. apply H1.
Qed.

End RuleExtractorMore.

(** ** Keyword-Bucket Scanner: the entries of the result *)

Section KeywordScannerMore.

Lemma any_in_strip keywords s :
  forallb solid keywords = true ->
  any_in keywords (strip s) = any_in keywords s.
Proof.
  unfold any_in. induction keywords as [|k ks IH]; [reflexivity|].
  intros [Hk Hks]%andb_true_iff.
  cbn [existsb]. rewrite contains_strip, IH by assumption. reflexivity.
Qed.

Lemma bucket_match_strip keywords lo hi line :
  forallb solid keywords = true ->
  bucket_match keywords lo hi (strip line) = bucket_match keywords lo hi line.
Proof.
  intros Hs. unfold bucket_match.
  rewrite lower_strip, any_in_strip, strip_idem by assumption. reflexivity.
Qed.

(** The test of a bucket gives the same answer on a line and on its
    stripped form. *)
Lemma bucket_test_strip key line :
  bucket_test key (strip line) = bucket_test key line.
Proof.
  unfold bucket_test, high_risk_match, supply_category_match,
    risk_factor_match.
  repeat case_decide; try reflexivity; apply bucket_match_strip; reflexivity.
Qed.

Lemma bucket_test_long key line :
  bucket_test key line = true -> 15 < String.length (strip line).
Proof.
  unfold bucket_test, high_risk_match, supply_category_match,
    risk_factor_match.
  repeat case_decide; try discriminate;
    intros (_ & Hlo & _)%bucket_match_spec; lia.
Qed.

Lemma in_matching text key x :
  x ∈ matching text key <->
  exists line, In line (split "010" text)
               /\ bucket_test key line = true /\ x = strip line.
Proof.
  unfold matching. rewrite list_elem_of_In, in_map_iff. split.
  - intros (line & <- & Hl). apply filter_In in Hl as [Hl Ht]. eauto.
  - intros (line & Hl & Ht & ->). exists line. split; [reflexivity|].
    apply filter_In. auto.
Qed.

Lemma bucket_of_listing set_order text key bucket :
  set_listing set_order ->
  extract_priorities set_order text !! key = Some bucket ->
  bucket = take 10 (set_order (matching text key))
  /\ forall x, x ∈ bucket -> x ∈ matching text key.
Proof.
  intros Hord Hb.
  apply (extract_priorities_bucket set_order) in Hb as [_ ->].
  rewrite collected_spec. fold (matching text key).
  split; [reflexivity|].
  intros x Hx. apply (Hord (matching text key)).
  eapply elem_of_take_list, Hx.
Qed.

(** X6. Every entry of a bucket of the result passes the test of that
    bucket itself: it has no surrounding whitespace, contains one of the
    bucket's keywords and has a length within the bucket's bounds. *)
Theorem bucket_entries_pass_own_test
    (set_order : list string -> list string) (text key : string)
    (bucket : list string) (x : string) :
  set_listing set_order ->
  extract_priorities set_order text !! key = Some bucket ->
  x ∈ bucket ->
  bucket_test key x = true /\ strip x = x /\ 15 < String.length x.
Proof.
  intros Hord Hb Hx.
  destruct (bucket_of_listing set_order text key bucket Hord Hb) as [_ Hin].
  apply Hin, in_matching in Hx as (line & _ & Ht & ->).
  rewrite bucket_test_strip, strip_idem.
  split; [exact Ht|]. split; [reflexivity|]. apply bucket_test_long in Ht.
  exact Ht.
Qed.

Lemma bucket_entries_pass_own_test_witness :
  bucket_test "high_risk_areas" "critical issue number 2" = true.
Proof.
  refine (proj1 (bucket_entries_pass_own_test insertion_order
    (numbered_text 3) "high_risk_areas" _ "critical issue number 2"
    insertion_order_listing _ _)).
  - vm_compute. reflexivity.
  - right. left.
Defined.

End KeywordScannerMore.

(** ** DWSP elements: [find_dwsp_elements] *)

Section DwspFacts.
Import DwspElements.

Lemma mark_found_idem line e :
  mark_found line (mark_found line e) = mark_found line e.
Proof.
  unfold mark_found. simpl. f_equal.
  destruct (decide (strip line ∈ sections e)) as [Hin|Hnin].
  - rewrite decide_True by exact Hin. reflexivity.
  - rewrite decide_True; [reflexivity|].
    apply elem_of_app. right. left.
Qed.

Lemma fold_scan_keyword line ks : forall e,
  fold_left (scan_keyword line) ks e
  = if element_match ks line then mark_found line e else e.
Proof.
  unfold element_match, any_in.
  induction ks as [|k ks IH]; intros e; [reflexivity|].
  cbn [fold_left existsb]. rewrite IH. unfold scan_keyword.
  fold (mark_found line e).
  destruct (contains (lower line) k); cbn [orb andb];
    destruct (0 <? String.length (strip line)); cbn [andb];
    rewrite ?andb_false_r, ?andb_true_r; try reflexivity.
  rewrite mark_found_idem. destruct (existsb _ ks); reflexivity.
Qed.

Lemma scan_element_spec line e :
  scan_element line e
  = if element_match (keywords e) line then mark_found line e else e.
Proof. apply fold_scan_keyword. Qed.

Lemma matched_sections_cons kws line lines :
  matched_sections kws (line :: lines)
  = if element_match kws line
    then strip line :: filter (fun y => y <> strip line)
                         (matched_sections kws lines)
    else matched_sections kws lines.
Proof.
  unfold matched_sections. cbn [List.filter].
  destruct (element_match kws line); reflexivity.
Qed.

Lemma element_eta e :
  {| title := title e; keywords := keywords e; found := found e;
     sections := sections e |} = e.
Proof. destruct e; reflexivity. Qed.

Lemma scan_element_lines_spec lines : forall e,
  scan_element_lines lines e = element_after lines e.
Proof.
  unfold scan_element_lines.
  induction lines as [|line lines IH]; intros e.
  - unfold element_after. simpl. rewrite orb_false_r, app_nil_r.
    symmetry. apply element_eta.
  - cbn [fold_left]. rewrite IH, scan_element_spec.
    unfold element_after. rewrite matched_sections_cons. cbn [existsb].
    destruct (element_match (keywords e) line) eqn:Hm.
    + cbn [mark_found title keywords found sections].
      rewrite orb_true_r. cbn [orb]. f_equal.
      destruct (decide (strip line ∈ sections e)) as [Hin|Hnin].
      * rewrite filter_cons_False by tauto.
        rewrite list_filter_filter_l; [reflexivity|].
        intros y Hy ->. contradiction.
      * rewrite filter_cons_True by assumption.
        rewrite <- app_assoc. cbn [app]. do 2 f_equal.
        rewrite list_filter_filter. apply list_filter_iff.
        intros y. rewrite elem_of_app, list_elem_of_singleton. tauto.
    + cbn [orb]. reflexivity.
Qed.

Lemma scan_lines_map lines : forall els,
  scan_lines els lines
  = map (fun p => (fst p, scan_element_lines lines (snd p))) els.
Proof.
  unfold scan_lines, scan_element_lines.
  induction lines as [|line lines IH]; intros els.
  - simpl. rewrite <- (map_id els) at 1. apply map_ext. intros [k e].
    reflexivity.
  - cbn [fold_left]. rewrite IH. unfold scan_elements. rewrite map_map.
    apply map_ext. intros [k e]. reflexivity.
Qed.

Lemma elements_init_fresh k e0 :
  In (k, e0) elements_init ->
  forallb solid (keywords e0) = true /\ sections e0 = [] /\ found e0 = false.
Proof.
  intros H. simpl in H.
  repeat destruct H as [[= <- <-]|H]; try contradiction;
    repeat split; reflexivity.
Qed.

Lemma element_after_fresh lines e0 :
  sections e0 = [] -> found e0 = false ->
  element_after lines e0 = element_result lines e0.
Proof.
  intros Hs Hf. unfold element_after, element_result. rewrite Hs, Hf.
  cbn [orb app]. f_equal. apply filter_all. intros x _. apply not_elem_of_nil.
Qed.

Lemma find_dwsp_elements_map text :
  find_dwsp_elements text
  = map (fun p => (fst p, element_result (split "010" text) (snd p)))
        elements_init.
Proof.
  unfold find_dwsp_elements. rewrite scan_lines_map.
  apply map_ext_in. intros [k e0] Hin. cbn [fst snd].
  destruct (elements_init_fresh k e0 Hin) as (_ & Hs & Hf).
  rewrite scan_element_lines_spec, element_after_fresh by assumption.
  reflexivity.
Qed.

Lemma in_find_dwsp_elements text k e :
  In (k, e) (find_dwsp_elements text) ->
  exists e0, In (k, e0) elements_init
             /\ e = element_result (split "010" text) e0.
Proof.
  rewrite find_dwsp_elements_map, in_map_iff.
  intros ([k0 e0] & [= <- <-] & Hin). eauto.
Qed.

(** X7. The result of the triple loop in closed form: the twelve
    elements come out under their keys, in their order and with their
    titles and keywords; the sections of an element are the stripped lines
    of the text that contain one of its keywords (case ignored), each once,
    in the order of first appearance, and [found] tells whether there is
    such a line. *)
Theorem find_dwsp_elements_closed_form (text : string) :
  map fst (find_dwsp_elements text) = map fst elements_init
  /\ length (find_dwsp_elements text) = 12
  /\ Forall2 (fun p0 p =>
        fst p = fst p0
        /\ title (snd p) = title (snd p0)
        /\ keywords (snd p) = keywords (snd p0)
        /\ sections (snd p)
           = first_occurrences
               (map strip (List.filter (element_match (keywords (snd p0)))
                                       (split "010" text)))
        /\ found (snd p)
           = existsb (element_match (keywords (snd p0))) (split "010" text))
       elements_init (find_dwsp_elements text).
Proof.
  rewrite find_dwsp_elements_map. split; [|split].
  - rewrite map_map. reflexivity.
  - rewrite length_map. reflexivity.
  - generalize elements_init. intros els.
    induction els as [|[k e0] els IH]; cbn [map]; constructor;
      [|exact IH].
    cbn [fst snd element_result title keywords sections found].
    unfold matched_sections. auto.
Qed.

Lemma element_match_solid kws line :
  forallb solid kws = true ->
  element_match kws line = any_in kws (lower line).
Proof.
  intros Hs. unfold element_match.
  destruct (any_in kws (lower line)) eqn:Ha; [|reflexivity].
  rewrite <- (any_in_strip kws (lower line) Hs), <- lower_strip in Ha.
  destruct (strip line); [|reflexivity].
  unfold any_in in Ha. apply existsb_exists in Ha as (k & Hk & Hc).
  rewrite forallb_forall in Hs. specialize (Hs k Hk).
  destruct k; [discriminate Hs | discriminate Hc].
Qed.

(** X8. An element is found exactly when some line of the text contains
    one of its keywords, case ignored; the guard on the length of the
    stripped line never turns such a line down. *)
Theorem dwsp_found_iff_keyword_occurs (text k : string) (e : element) :
  In (k, e) (find_dwsp_elements text) ->
  (found e = true <->
   exists line keyword,
     In line (split "010" text) /\ In keyword (keywords e)
     /\ contains (lower line) keyword = true).
Proof.
  intros Hin. apply in_find_dwsp_elements in Hin as (e0 & Hin & ->).
  destruct (elements_init_fresh k e0 Hin) as (Hsolid & _ & _).
  cbn [element_result found keywords]. rewrite existsb_exists. split.
  - intros (line & Hl & Hm). rewrite (element_match_solid _ _ Hsolid) in Hm.
    apply existsb_exists in Hm as (kw & Hk & Hc). eauto.
  - intros (line & kw & Hl & Hk & Hc). exists line. split; [exact Hl|].
    rewrite (element_match_solid _ _ Hsolid). apply existsb_exists. eauto.
Qed.

Lemma dwsp_found_iff_keyword_occurs_witness :
  exists e, In ("element_7", e)
              (find_dwsp_elements ("Intro" +:+ nl +:+ "EMERGENCY contacts"))
            /\ found e = true.
Proof.
  eexists. split.
  - do 6 right. left. reflexivity.
  - eapply (dwsp_found_iff_keyword_occurs
              ("Intro" +:+ nl +:+ "EMERGENCY contacts") "element_7").
    + do 6 right. left. reflexivity.
    + exists "EMERGENCY contacts", "emergency".
      split; [right; left; reflexivity|].
      split; [right; left; reflexivity | reflexivity].
Defined.

End DwspFacts.
